(** * export_interviews_to_excel: the markdown field extraction, verified

    A shallow embedding of [InterviewExporter] from
    [src/export_interviews_to_excel.py]: the question extractor, the
    reference resolver and the code-answer extractor, with the part of
    Python's [str] and [re] they rely on.

    Data model.
    - Text is [string]: a sequence of characters with code points 0..255.
      On that range [str.lower], [str.strip], [\s], [\d] and the
      case-insensitive comparison of [re] are the functions below.
    - A question record is the Python dict of the source, a
      [gmap string string] from key to value.
    - The files a citation may point at are a [filesystem]: a function from
      a path to the state of that path.
    - Exceptions are the error monad [exc]; [try_except] is the
      [try: ... except Exception] of the source. *)

From Stdlib Require Import String Ascii List Bool Arith Lia DecimalString.
From stdpp Require Import base option gmap strings.
Import ListNotations.

Open Scope string_scope.
Open Scope nat_scope.

(** ** Characters and strings, as Python's [str] has them *)

Module Str.

Definition code (c : ascii) : nat := nat_of_ascii c.

Definition between (lo hi n : nat) : bool := (lo <=? n) && (n <=? hi).

(** [c.isspace()], which is also the class [\s] of a [str] pattern. *)
Definition is_space (c : ascii) : bool :=
  let n := code c in
  between 9 13 n || between 28 32 n || (n =? 133) || (n =? 160).

(** [c.isdecimal()], the class [\d] of a [str] pattern. *)
Definition is_digit (c : ascii) : bool := between 48 57 (code c).

(** [c.lower()] on one character: A-Z and the upper-case letters of
    Latin-1 (all of 0xC0..0xDE but the multiplication sign 0xD7). *)
Definition lower_char (c : ascii) : ascii :=
  let n := code c in
  if between 65 90 n || (between 192 222 n && negb (n =? 215))
  then ascii_of_nat (n + 32) else c.

(** [s.lower()] *)
Fixpoint lower (s : string) : string :=
  match s with
  | EmptyString => EmptyString
  | String c s' => String (lower_char c) (lower s')
  end.

(** [s.lstrip()] *)
Fixpoint lstrip (s : string) : string :=
  match s with
  | EmptyString => EmptyString
  | String c s' => if is_space c then lstrip s' else s
  end.

(** [s.rstrip()] *)
Fixpoint rstrip (s : string) : string :=
  match s with
  | EmptyString => EmptyString
  | String c s' =>
      match rstrip s' with
      | EmptyString => if is_space c then EmptyString else String c EmptyString
      | r => String c r
      end
  end.

(** [s.strip()] *)
Definition strip (s : string) : string := rstrip (lstrip s).

(** [s.startswith(p)] *)
Fixpoint startswith (p s : string) : bool :=
  match p, s with
  | EmptyString, _ => true
  | String a p', String b s' => Ascii.eqb a b && startswith p' s'
  | String _ _, EmptyString => false
  end.

(** [needle in hay] *)
Fixpoint contains (needle hay : string) : bool :=
  startswith needle hay
  || match hay with
     | EmptyString => false
     | String _ hay' => contains needle hay'
     end.

(** [s[n:]] *)
Fixpoint drop (n : nat) (s : string) : string :=
  match n, s with
  | O, _ => s
  | S _, EmptyString => EmptyString
  | S n', String _ s' => drop n' s'
  end.

(** [s[i:j]] for [i <= j] *)
Definition slice (i j : nat) (s : string) : string :=
  String.substring i (j - i) s.

(** [s.split(sep)] for a separator of one character: never empty. *)
Fixpoint split (sep : ascii) (s : string) : list string :=
  match s with
  | EmptyString => [EmptyString]
  | String c s' =>
      if Ascii.eqb c sep then EmptyString :: split sep s'
      else match split sep s' with
           | h :: t => String c h :: t
           | [] => [String c EmptyString]
           end
  end.

(** [sep.join(l)] *)
Fixpoint join (sep : string) (l : list string) : string :=
  match l with
  | [] => EmptyString
  | [x] => x
  | x :: l' => x +:+ sep +:+ join sep l'
  end.

(** truth value of a string: [bool(s)] *)
Definition truthy (s : string) : bool :=
  match s with EmptyString => false | String _ _ => true end.

Definition NL : ascii := ascii_of_nat 10.

End Str.

(** ** The fragment of Python's [re] the exporter uses

    A backtracking matcher in continuation-passing style: alternatives are
    tried left to right, a greedy repetition takes the longest run first,
    a lazy one the shortest, and the first success is the match.  Every
    repetition in the exporter's patterns is over a single character
    class, so [Rep] repeats a class, by recursion on the text. *)

Module Re.

Record flags := Flags { multiline : bool; dotall : bool; ignorecase : bool }.

Definition NOFLAG := Flags false false false.
Definition MULTILINE := Flags true false false.
Definition DOTALL := Flags false true false.
Definition IGNORECASE := Flags false false true.
(** [f1 | f2] *)
Definition flag_or (f1 f2 : flags) : flags :=
  Flags (multiline f1 || multiline f2) (dotall f1 || dotall f2)
        (ignorecase f1 || ignorecase f2).

(** One-character matchers. *)
Inductive cset :=
| Any                      (* .       *)
| Chr (c : ascii)          (* a literal character *)
| Space                    (* \s      *)
| Digit                    (* \d      *)
| OneOf (s : string)       (* [...]   *)
| NoneOf (s : string).     (* [^...]  *)

Inductive regex :=
| Lit (s : string)                                   (* literal text *)
| One (cs : cset)
| Rep (cs : cset) (lo : nat) (hi : option nat) (greedy : bool)
| Seq (r1 r2 : regex)
| Alt (r1 r2 : regex)
| Grp (i : nat) (r : regex)                          (* capturing group i *)
| Ahead (r : regex)                                  (* (?=...) *)
| Bol                                                (* ^ *)
| Eol.                                               (* $ *)

(** the usual quantifiers *)
Definition star cs := Rep cs 0 None true.        (* x*  *)
Definition plus cs := Rep cs 1 None true.        (* x+  *)
Definition opt cs := Rep cs 0 (Some 1) true.     (* x?  *)
Definition star_lazy cs := Rep cs 0 None false.  (* x*? *)
Definition plus_lazy cs := Rep cs 1 None false.  (* x+? *)

(** A position in the subject, with the groups captured so far
    (group number, start, end; the latest capture first). *)
Record mstate := MState { pos : nat; rest : string; caps : list (nat * (nat * nat)) }.

Section Matcher.
Variable fl : flags.
Variable subject : string.

Definition char_eq (p c : ascii) : bool :=
  if ignorecase fl then Ascii.eqb (Str.lower_char p) (Str.lower_char c)
  else Ascii.eqb p c.

Fixpoint mem_char (c : ascii) (s : string) : bool :=
  match s with
  | EmptyString => false
  | String p s' => char_eq p c || mem_char c s'
  end.

Definition cset_match (cs : cset) (c : ascii) : bool :=
  match cs with
  | Any => dotall fl || negb (Ascii.eqb c Str.NL)
  | Chr p => char_eq p c
  | Space => Str.is_space c
  | Digit => Str.is_digit c
  | OneOf s => mem_char c s
  | NoneOf s => negb (mem_char c s)
  end.

(** the text left after the literal [p], when the text starts with it *)
Fixpoint lit (p s : string) : option string :=
  match p, s with
  | EmptyString, _ => Some s
  | String a p', String c s' => if char_eq a c then lit p' s' else None
  | String _ _, EmptyString => None
  end.

Definition below (hi : option nat) (n : nat) : bool :=
  match hi with None => true | Some h => n <? h end.

Definition or_else {A} (x y : option A) : option A :=
  match x with Some _ => x | None => y end.

(** [n] characters of the class taken so far: a greedy repetition takes
    one more when it can, and hands over to [k] when that fails. *)
Fixpoint rep_greedy {A} (cs : cset) (lo : nat) (hi : option nat)
    (k : nat -> string -> option A) (n p : nat) (s : string) : option A :=
  let stop := if lo <=? n then k p s else None in
  match s with
  | String c s' =>
      if cset_match cs c && below hi n
      then or_else (rep_greedy cs lo hi k (S n) (S p) s') stop
      else stop
  | EmptyString => stop
  end.

(** a lazy repetition hands over to [k] first, and takes one more
    character when [k] fails. *)
Fixpoint rep_lazy {A} (cs : cset) (lo : nat) (hi : option nat)
    (k : nat -> string -> option A) (n p : nat) (s : string) : option A :=
  let more :=
    match s with
    | String c s' =>
        if cset_match cs c && below hi n
        then rep_lazy cs lo hi k (S n) (S p) s' else None
    | EmptyString => None
    end in
  if lo <=? n then or_else (k p s) more else more.

(** [^]: the start of the subject, or after a newline under MULTILINE *)
Definition at_bol (p : nat) : bool :=
  match p with
  | O => true
  | S p' => multiline fl &&
            match String.get p' subject with
            | Some c => Ascii.eqb c Str.NL
            | None => false
            end
  end.

(** [$]: the end of the subject or before its final newline; before any
    newline under MULTILINE *)
Definition at_eol (s : string) : bool :=
  match s with
  | EmptyString => true
  | String c s' =>
      Ascii.eqb c Str.NL &&
      (multiline fl || match s' with EmptyString => true | _ => false end)
  end.

Fixpoint rmatch (r : regex) (st : mstate)
    (k : mstate -> option mstate) : option mstate :=
  match r with
  | Lit p =>
      match lit p (rest st) with
      | Some s' => k (MState (pos st + String.length p) s' (caps st))
      | None => None
      end
  | One cs =>
      match rest st with
      | String c s' =>
          if cset_match cs c then k (MState (S (pos st)) s' (caps st))
          else None
      | EmptyString => None
      end
  | Rep cs lo hi greedy =>
      (if greedy then @rep_greedy mstate else @rep_lazy mstate) cs lo hi
        (fun p s => k (MState p s (caps st))) 0 (pos st) (rest st)
  | Seq r1 r2 => rmatch r1 st (fun st' => rmatch r2 st' k)
  | Alt r1 r2 => or_else (rmatch r1 st k) (rmatch r2 st k)
  | Grp i r1 =>
      rmatch r1 st
        (fun st' => k (MState (pos st') (rest st')
                              ((i, (pos st, pos st')) :: caps st')))
  | Ahead r1 =>
      match rmatch r1 st Some with
      | Some _ => k st
      | None => None
      end
  | Bol => if at_bol (pos st) then k st else None
  | Eol => if at_eol (rest st) then k st else None
  end.

(** A match object: where the match starts, and the state at its end. *)
Record mres := MRes { mstart : nat; mend_state : mstate }.

Definition mend (m : mres) : nat := pos (mend_state m).

(** [m.group(i)]; a group that took no part reads as the empty string *)
Definition group (i : nat) (m : mres) : string :=
  match i with
  | O => Str.slice (mstart m) (mend m) subject
  | _ =>
      match List.find (fun c => fst c =? i) (caps (mend_state m)) with
      | Some (_, (a, b)) => Str.slice a b subject
      | None => EmptyString
      end
  end.

(** One attempt at position [p]; with [must_advance] an empty match is
    refused, as the scanner of [findall] and [split] asks after an
    empty match. *)
Definition match_at (r : regex) (must_advance : bool) (p : nat)
    (s : string) : option mres :=
  match rmatch r (MState p s [])
          (fun st => if must_advance && (pos st =? p) then None
                     else Some st) with
  | Some st => Some (MRes p st)
  | None => None
  end.

(** leftmost match at or after position [p] *)
Fixpoint search_from (r : regex) (p : nat) (s : string) : option mres :=
  match match_at r false p s with
  | Some m => Some m
  | None =>
      match s with
      | String _ s' => search_from r (S p) s'
      | EmptyString => None
      end
  end.

(** the matches that start at [p]: an empty one may be followed by a
    non-empty one at the same place *)
Definition matches_here (r : regex) (p : nat) (s : string) : list mres :=
  match match_at r false p s with
  | None => []
  | Some m =>
      if mend m =? p
      then m :: match match_at r true p s with
                | Some m' => [m']
                | None => []
                end
      else [m]
  end.

(** all non-overlapping matches from left to right; [skip] positions
    lie inside the match found last *)
Fixpoint scan (r : regex) (skip p : nat) (s : string) : list mres :=
  match skip with
  | S skip' =>
      match s with
      | String _ s' => scan r skip' (S p) s'
      | EmptyString => []
      end
  | O =>
      let ms := matches_here r p s in
      let skip' := match List.last (map Some ms) None with
                   | Some m => mend m - p - 1
                   | None => 0
                   end in
      ms ++ match s with
            | String _ s' => scan r skip' (S p) s'
            | EmptyString => []
            end
  end.

(** the pieces of [re.split] for a pattern with one group: the text
    before each match, then its group, and at last the text left *)
Fixpoint split_pieces (ms : list mres) (last : nat) : list string :=
  match ms with
  | [] => [Str.drop last subject]
  | m :: ms' =>
      Str.slice last (mstart m) subject :: group 1 m
        :: split_pieces ms' (mend m)
  end.

End Matcher.

(** [re.match(r, s, fl)] *)
Definition re_match (r : regex) (fl : flags) (s : string) : option mres :=
  match_at fl s r false 0 s.

(** [re.search(r, s, fl)] *)
Definition search (r : regex) (fl : flags) (s : string) : option mres :=
  search_from fl s r 0 s.

Definition finditer (r : regex) (fl : flags) (s : string) : list mres :=
  scan fl s r 0 0 s.

(** [re.findall(r, s, fl)] for a pattern with one group *)
Definition findall (r : regex) (fl : flags) (s : string) : list string :=
  map (group s 1) (finditer r fl s).

(** [re.split(r, s, flags=fl)] for a pattern with one group *)
Definition split (r : regex) (fl : flags) (s : string) : list string :=
  split_pieces s (finditer r fl s) 0.

(** [m.group(1) if m else default] *)
Definition group1_or (s : string) (m : option mres) (default : string) : string :=
  match m with Some m' => group s 1 m' | None => default end.

End Re.

(** ** Exceptions and the file system *)

Inductive exc (A : Type) : Type :=
| Ok (a : A)
| Raise (e : string).
Arguments Ok {A} a.
Arguments Raise {A} e.

#[global] Instance exc_ret : MRet exc := fun A a => Ok a.
#[global] Instance exc_bind : MBind exc := fun A B f m =>
  match m with
  | Ok a => f a
  | Raise e => Raise e
  end.

(** [try: body except Exception as e: handler(str(e))] *)
Definition try_except {A} (body : exc A) (handler : string -> exc A) : exc A :=
  match body with
  | Ok a => Ok a
  | Raise e => handler e
  end.

(** What a path names: nothing, a file that reads as [content], or
    something that exists and makes [open] or [read] raise [err]. *)
Inductive file_state :=
| Missing
| Readable (content : string)
| Unreadable (err : string).

Definition filesystem := string -> file_state.

(** [Path(p).exists()] *)
Definition path_exists (fs : filesystem) (p : string) : bool :=
  match fs p with
  | Missing => false
  | _ => true
  end.

(** [with open(p, 'r', encoding='utf-8') as f: f.read()] *)
Definition read_file (fs : filesystem) (p : string) : exc string :=
  match fs p with
  | Readable content => Ok content
  | Unreadable err => Raise err
  | Missing => Raise ("[Errno 2] No such file or directory: '" +:+ p +:+ "'")
  end.

(** ** The exporter *)

Module InterviewExporter.
Import Re.

Infix ">>" := Seq (at level 65, right associativity).

Definition NL : ascii := Str.NL.
Definition QUOTE : ascii := ascii_of_nat 34.
Definition nl : string := String NL EmptyString.

Definition is_match (m : option mres) : bool :=
  match m with Some _ => true | None => false end.

(** *** The patterns, in the order the source has them *)

(** [^## (Part \d+.*?)$] *)
Definition PART_HEADING : regex :=
  Bol >> Lit "## " >> Grp 1 (Lit "Part " >> plus Digit >> star_lazy Any) >> Eol.

(** [^### ((?:Question|Challenge|SQL Query|Database Schema Design|Scenario).*?)$] *)
Definition QUESTION_HEADING : regex :=
  Bol >> Lit "### " >>
  Grp 1 (Alt (Lit "Question")
          (Alt (Lit "Challenge")
            (Alt (Lit "SQL Query")
              (Alt (Lit "Database Schema Design") (Lit "Scenario")))) >>
         star_lazy Any) >>
  Eol.

(** the lookahead that ends a labelled field: [(?=\*\*|---|$)] *)
Definition FIELD_END : regex := Ahead (Alt (Lit "**") (Alt (Lit "---") Eol)).

(** a bold text in straight quotes, group 1 the text between the quotes *)
Definition QUESTION_TEXT : regex :=
  Lit "**" >> One (Chr QUOTE) >> Grp 1 (plus_lazy Any) >> One (Chr QUOTE) >> Lit "**".

(** [\*\*Expected.*?Answer.*?Points?\*\*:\s*(.+?)(?=\*\*|---|$)] *)
Definition EXPECTED_POINTS : regex :=
  Lit "**Expected" >> star_lazy Any >> Lit "Answer" >> star_lazy Any >>
  Lit "Point" >> opt (Chr "s") >> Lit "**:" >> star Space >>
  Grp 1 (plus_lazy Any) >> FIELD_END.

(** [\*\*(?:Problem Statement|Expected Solution.*?)\*\*\s*(.+?)(?=\*\*|---|$)] *)
Definition EXPECTED_BOLD : regex :=
  Lit "**" >>
  Alt (Lit "Problem Statement") (Lit "Expected Solution" >> star_lazy Any) >>
  Lit "**" >> star Space >> Grp 1 (plus_lazy Any) >> FIELD_END.

(** [### (?:Problem Statement|Expected Solution.*?)\s*(.+?)(?=###|---|$)] *)
Definition EXPECTED_HEADING : regex :=
  Lit "### " >>
  Alt (Lit "Problem Statement") (Lit "Expected Solution" >> star_lazy Any) >>
  star Space >> Grp 1 (plus_lazy Any) >>
  Ahead (Alt (Lit "###") (Alt (Lit "---") Eol)).

(** [\*\*Follow-up.*?\*\*:\s*(.+?)(?=\*\*|---|$)] *)
Definition FOLLOWUP : regex :=
  Lit "**Follow-up" >> star_lazy Any >> Lit "**:" >> star Space >>
  Grp 1 (plus_lazy Any) >> FIELD_END.

(** [\*\*Reference\*\*:\s*(.+?)(?=\*\*|---|$)] *)
Definition REFERENCE : regex :=
  Lit "**Reference**:" >> star Space >> Grp 1 (plus_lazy Any) >> FIELD_END.

(** [\((\d+.*?minutes?)\)] *)
Definition TIME_ALLOCATION : regex :=
  Lit "(" >>
  Grp 1 (plus Digit >> star_lazy Any >> Lit "minute" >> opt (Chr "s")) >>
  Lit ")".

(** [\[.*?\]\(([^)]+)\)] *)
Definition LINK : regex :=
  Lit "[" >> star_lazy Any >> Lit "](" >> Grp 1 (plus (NoneOf ")")) >> Lit ")".

(** [^\d+] *)
Definition LEADING_NUMBER : regex := Bol >> plus Digit.

(** [^#+\s*{re.escape(token)}[\.:]?\s*(.+?)$] *)
Definition NUMBERED_HEADING (token : string) : regex :=
  Bol >> plus (Chr "#") >> star Space >> Lit token >> opt (OneOf ".:") >>
  star Space >> Grp 1 (plus_lazy Any) >> Eol.

(** [^#+\s*\d+] *)
Definition NEXT_NUMBERED : regex :=
  Bol >> plus (Chr "#") >> star Space >> plus Digit.

(** [^##[^#]] *)
Definition LEVEL2_HEADING : regex := Bol >> Lit "##" >> One (NoneOf "#").

(** [^#+\s+] *)
Definition ANY_HEADING : regex := Bol >> plus (Chr "#") >> plus Space.

(** the tail of every code pattern: [\n(.*?)\n```] *)
Definition FENCE_BODY : regex :=
  One (Chr NL) >> Grp 1 (star_lazy Any) >> One (Chr NL) >> Lit "```".

(** [```go\s*\n(.*?)\n```] *)
Definition GO_BLOCK : regex := Lit "```go" >> star Space >> FENCE_BODY.

(** [```\s*\n(.*?)\n```] *)
Definition GENERIC_BLOCK : regex := Lit "```" >> star Space >> FENCE_BODY.

(** [\*\*Expected.*?Answer.*?\*\*:?\s*```.*?\n(.*?)\n```],
    [\*\*Expected.*?Solution.*?\*\*:?\s*```.*?\n(.*?)\n```],
    [\*\*Solution.*?\*\*:?\s*```.*?\n(.*?)\n```] and
    [### Expected Solution Structure\s*```.*?\n(.*?)\n```] *)
Definition solution_patterns : list regex :=
  [ Lit "**Expected" >> star_lazy Any >> Lit "Answer" >> star_lazy Any >>
    Lit "**" >> opt (Chr ":") >> star Space >> Lit "```" >> star_lazy Any >>
    FENCE_BODY;
    Lit "**Expected" >> star_lazy Any >> Lit "Solution" >> star_lazy Any >>
    Lit "**" >> opt (Chr ":") >> star Space >> Lit "```" >> star_lazy Any >>
    FENCE_BODY;
    Lit "**Solution" >> star_lazy Any >>
    Lit "**" >> opt (Chr ":") >> star Space >> Lit "```" >> star_lazy Any >>
    FENCE_BODY;
    Lit "### Expected Solution Structure" >> star Space >> Lit "```" >>
    star_lazy Any >> FENCE_BODY ].

(** [\*\*Expected.*?Code.*?Example.*?\*\*:?\s*(.+?)(?=\*\*|---|$)] *)
Definition CODE_EXAMPLE : regex :=
  Lit "**Expected" >> star_lazy Any >> Lit "Code" >> star_lazy Any >>
  Lit "Example" >> star_lazy Any >> Lit "**" >> opt (Chr ":") >> star Space >>
  Grp 1 (plus_lazy Any) >> FIELD_END.

(** *** Reference resolution *)

(** the lines taken after the matched heading: the loop of
    [extract_section_by_anchor], which breaks at the next numbered
    heading and at a line that starts with two hashes and no third *)
Fixpoint section_loop (lines : list string) : list string :=
  match lines with
  | [] => []
  | line :: lines' =>
      if is_match (re_match NEXT_NUMBERED NOFLAG line) then []
      else if is_match (re_match LEVEL2_HEADING NOFLAG line) then []
      else line :: section_loop lines'
  end.

(** [None] of the source is [None] here; the [try] around the body
    turns an exception into [None]. The source first binds
    [heading_pattern], which it never reads; it has no counterpart here. *)
Definition extract_section_by_anchor (content anchor : string)
    : exc (option string) :=
  try_except
    (if is_match (re_match LEADING_NUMBER NOFLAG anchor) then
       let pattern := NUMBERED_HEADING (hd EmptyString (Str.split "-" anchor)) in
       match search pattern (flag_or MULTILINE IGNORECASE) content with
       | Some m =>
           let start_pos := mstart m in
           let lines := Str.split NL (Str.drop start_pos content) in
           let section_lines := hd EmptyString lines :: section_loop (tl lines) in
           Ok (Some (Str.strip (Str.join nl section_lines)))
       | None => Ok None
       end
     else Ok None)
    (fun _ => Ok None).

(** the first line among the first ten that starts with [# ] *)
Definition title_lines (lines : list string) : list string :=
  match List.find (Str.startswith "# ") (firstn 10 lines) with
  | Some line => [line]
  | None => []
  end.

(** the heading lines, as long as fewer than five were taken *)
Fixpoint headings_loop (lines : list string) (heading_count : nat)
    : list string :=
  match lines with
  | [] => []
  | line :: lines' =>
      if is_match (re_match ANY_HEADING NOFLAG line) && (heading_count <? 5)
      then line :: headings_loop lines' (S heading_count)
      else headings_loop lines' heading_count
  end.

Definition create_file_summary (content file_path : string) : string :=
  let lines := Str.split NL content in
  let summary_lines := (title_lines lines ++ headings_loop lines 0)%list in
  match summary_lines with
  | _ :: _ =>
      "Content from " +:+ file_path +:+ ":" +:+ nl +:+ nl
      +:+ Str.join nl summary_lines
  | [] =>
      "Content available in " +:+ file_path
      +:+ " (no specific section extracted)"
  end.

(** [file_match.group(1)], when the citation has a bracketed link *)
Definition link_target (reference_text : string) : option string :=
  match search LINK NOFLAG reference_text with
  | Some file_match => Some (group reference_text 1 file_match)
  | None => None
  end.

(** [if file_path.startswith('../'): file_path = file_path[3:]] *)
Definition strip_parent (file_path : string) : string :=
  if Str.startswith "../" file_path then Str.drop 3 file_path else file_path.

(** [if '#' in file_path: file_path = file_path.split('#')[0]] *)
Definition strip_fragment (file_path : string) : string :=
  if Str.contains "#" file_path
  then hd EmptyString (Str.split "#" file_path) else file_path.

(** the path whose existence is checked *)
Definition referenced_path (target : string) : string :=
  strip_fragment (strip_parent target).

(** [original_ref.split('#')[1]], when [original_ref] has a [#] *)
Definition anchor_of (original_ref : string) : option string :=
  if Str.contains "#" original_ref
  then Some (nth 1 (Str.split "#" original_ref) EmptyString) else None.

(** the body of the [try] of [fetch_reference_content] *)
Definition fetch_reference_body (fs : filesystem) (reference_text : string)
    : exc string :=
  match link_target reference_text with
  | None => Ok reference_text
  | Some original_ref =>
      let file_path := referenced_path original_ref in
      if negb (path_exists fs file_path)
      then Ok ("Referenced file not found: " +:+ file_path)
      else
        content ← read_file fs file_path;
        section_content ←
          match anchor_of original_ref with
          | Some anchor => extract_section_by_anchor content anchor
          | None => Ok None
          end;
        match section_content with
        | Some section =>
            if Str.truthy section then Ok section
            else Ok (create_file_summary content file_path)
        | None => Ok (create_file_summary content file_path)
        end
  end.

Definition fetch_reference_content (fs : filesystem) (reference_text : string)
    : exc string :=
  if String.eqb reference_text "N/A" || negb (Str.truthy reference_text)
  then Ok "N/A"
  else try_except (fetch_reference_body fs reference_text)
         (fun e => Ok ("Error fetching reference: " +:+ e)).

(** *** The code answer *)

Definition coding_indicators : list string :=
  [ "Challenge:"; "Coding"; "Implementation"; "Algorithm";
    "Write a"; "Implement"; "Create a Go"; "Design and implement" ].

Definition go_keywords : list string :=
  [ "package"; "import"; "func"; "type"; "var"; "const"; "go "; "chan";
    "select" ].

Definition is_coding_question (question_content : string) : bool :=
  existsb (fun indicator =>
             Str.contains (Str.lower indicator) (Str.lower question_content))
          coding_indicators.

(** every snippet the extractor collects, in the order of discovery *)
Definition collect_code_blocks (question_content : string) : list string :=
  let go_blocks := findall GO_BLOCK DOTALL question_content in
  let generic_blocks := findall GENERIC_BLOCK DOTALL question_content in
  (go_blocks
   ++ List.filter (fun block =>
                existsb (fun keyword => Str.contains keyword block) go_keywords)
             generic_blocks
   ++ concat (map (fun pattern =>
                     findall pattern (flag_or DOTALL IGNORECASE) question_content)
                  solution_patterns))%list.

(** the loop that fills [cleaned_blocks] *)
Fixpoint clean_blocks (code_blocks : list string) : list string :=
  match code_blocks with
  | [] => []
  | block :: code_blocks' =>
      let cleaned_block := Str.strip block in
      if Str.truthy cleaned_block && (20 <? String.length cleaned_block)
      then cleaned_block :: clean_blocks code_blocks'
      else clean_blocks code_blocks'
  end.

Definition CODE_SEPARATOR : string :=
  nl +:+ nl +:+ "--- CODE BLOCK ---" +:+ nl +:+ nl.

(** the search for an [Expected Code Example] label, the last resort *)
Definition code_example (question_content : string) : string :=
  match search CODE_EXAMPLE (flag_or DOTALL IGNORECASE) question_content with
  | Some m => Str.strip (group question_content 1 m)
  | None => EmptyString
  end.

Definition extract_code_answer (question_content : string) : string :=
  if negb (Str.truthy question_content) then EmptyString
  else if negb (is_coding_question question_content) then EmptyString
  else
    let code_blocks := collect_code_blocks question_content in
    let cleaned_blocks := clean_blocks code_blocks in
    match code_blocks, cleaned_blocks with
    | _ :: _, _ :: _ => Str.join CODE_SEPARATOR cleaned_blocks
    | _, _ => code_example question_content
    end.

(** *** Questions *)

(** a question record: the dict built at the end of the loop body *)
Abbreviation QuestionRecord := (gmap string string).

Definition extract_question_text (question_content : string) : string :=
  group1_or question_content (search QUESTION_TEXT DOTALL question_content) "N/A".

(** the three label patterns of the expected answer, the first that
    matches wins *)
Definition expected_match (question_content : string) : option mres :=
  match search EXPECTED_POINTS DOTALL question_content with
  | Some m => Some m
  | None =>
      match search EXPECTED_BOLD DOTALL question_content with
      | Some m => Some m
      | None => search EXPECTED_HEADING DOTALL question_content
      end
  end.

Definition extract_expected_answer (question_content : string) : string :=
  match expected_match question_content with
  | Some m => Str.strip (group question_content 1 m)
  | None => "N/A"
  end.

Definition extract_followup (question_content : string) : string :=
  match search FOLLOWUP DOTALL question_content with
  | Some m => Str.strip (group question_content 1 m)
  | None => "N/A"
  end.

Definition extract_reference_text (question_content : string) : string :=
  match search REFERENCE DOTALL question_content with
  | Some m => Str.strip (group question_content 1 m)
  | None => "N/A"
  end.

Definition extract_time_allocation (question_title : string) : string :=
  group1_or question_title (search TIME_ALLOCATION NOFLAG question_title) "N/A".

(** the body of the loop of [extract_questions_from_part], for one
    question block *)
Definition question_record (fs : filesystem)
    (part_title question_title question_content : string)
    : exc QuestionRecord :=
  let question_text := extract_question_text question_content in
  let expected_answer := extract_expected_answer question_content in
  let followup := extract_followup question_content in
  let reference_text := extract_reference_text question_content in
  reference_content ← fetch_reference_content fs reference_text;
  let code_answer := extract_code_answer question_content in
  let time_allocation := extract_time_allocation question_title in
  Ok ({[ "part" := part_title;
         "question_title" := question_title;
         "question_text" := question_text;
         "expected_answer" := expected_answer;
         "followup" := followup;
         "reference_link" := reference_text;
         "reference_content" := reference_content;
         "code_answer" := code_answer ]} : QuestionRecord).

(** [for i in range(1, len(sections), 2): if i + 1 < len(sections)], on
    the sections from index 1 on: title and content, pair by pair *)
Fixpoint questions_loop (fs : filesystem) (part_title : string)
    (sections : list string) : exc (list QuestionRecord) :=
  match sections with
  | question_title :: question_content :: sections' =>
      q ← question_record fs part_title question_title question_content;
      questions ← questions_loop fs part_title sections';
      Ok (q :: questions)
  | _ => Ok []
  end.

Definition extract_questions_from_part (fs : filesystem)
    (part_title part_content : string) : exc (list QuestionRecord) :=
  let question_sections := split QUESTION_HEADING MULTILINE part_content in
  questions_loop fs part_title (tl question_sections).

Fixpoint parts_loop (fs : filesystem) (parts : list string)
    : exc (list QuestionRecord) :=
  match parts with
  | part_title :: part_content :: parts' =>
      part_questions ← extract_questions_from_part fs part_title part_content;
      questions ← parts_loop fs parts';
      Ok (part_questions ++ questions)%list
  | _ => Ok []
  end.

Definition extract_questions (fs : filesystem) (content : string)
    : exc (list QuestionRecord) :=
  let parts := split PART_HEADING MULTILINE content in
  parts_loop fs (tl parts).

End InterviewExporter.

(** ** Patterns with [\Z]

    [extract_alternatives] ends a lazy group at a lookahead that has the
    end of the text, [\Z], among its alternatives. [zregex] adds [Eos] on
    top of [regex]: a [regex] is matched by [rmatch] as before, with the
    continuation that the pattern around it gives. *)

Module ReZ.
Import Re.

Inductive zregex :=
| Z (r : regex)
| ZSeq (r1 r2 : zregex)
| ZAlt (r1 r2 : zregex)
| ZAhead (r : zregex)                                (* (?=...) *)
| Eos.                                               (* \Z *)

Section Matcher.
Variable fl : flags.
Variable subject : string.

Fixpoint zmatch (r : zregex) (st : mstate)
    (k : mstate -> option mstate) : option mstate :=
  match r with
  | Z r0 => rmatch fl subject r0 st k
  | ZSeq r1 r2 => zmatch r1 st (fun st' => zmatch r2 st' k)
  | ZAlt r1 r2 => or_else (zmatch r1 st k) (zmatch r2 st k)
  | ZAhead r1 =>
      match zmatch r1 st Some with
      | Some _ => k st
      | None => None
      end
  | Eos =>
      match rest st with
      | EmptyString => k st
      | String _ _ => None
      end
  end.

(** as [match_at] *)
Definition zmatch_at (r : zregex) (must_advance : bool) (p : nat)
    (s : string) : option mres :=
  match zmatch r (MState p s [])
          (fun st => if must_advance && (pos st =? p) then None
                     else Some st) with
  | Some st => Some (MRes p st)
  | None => None
  end.

(** as [matches_here] *)
Definition zmatches_here (r : zregex) (p : nat) (s : string) : list mres :=
  match zmatch_at r false p s with
  | None => []
  | Some m =>
      if mend m =? p
      then m :: match zmatch_at r true p s with
                | Some m' => [m']
                | None => []
                end
      else [m]
  end.

(** as [scan] *)
Fixpoint zscan (r : zregex) (skip p : nat) (s : string) : list mres :=
  match skip with
  | S skip' =>
      match s with
      | String _ s' => zscan r skip' (S p) s'
      | EmptyString => []
      end
  | O =>
      let ms := zmatches_here r p s in
      let skip' := match List.last (map Some ms) None with
                   | Some m => mend m - p - 1
                   | None => 0
                   end in
      ms ++ match s with
            | String _ s' => zscan r skip' (S p) s'
            | EmptyString => []
            end
  end.

End Matcher.

Definition zfinditer (r : zregex) (fl : flags) (s : string) : list mres :=
  zscan fl s r 0 0 s.

(** [re.findall(r, s, fl)] for a pattern with one group *)
Definition zfindall (r : zregex) (fl : flags) (s : string) : list string :=
  map (group s 1) (zfinditer r fl s).

End ReZ.

(** ** One interview file *)

Module InterviewFile.
Import Re ReZ InterviewExporter.

(** [### Alternative.*?Questions.*?\n(.*?)(?=^##|^---|\Z)] *)
Definition ALT_SECTION : zregex :=
  ZSeq (Z (Lit "### Alternative" >> star_lazy Any >> Lit "Questions" >>
           star_lazy Any >> One (Chr NL) >> Grp 1 (star_lazy Any)))
       (ZAhead (ZAlt (Z (Bol >> Lit "##"))
                 (ZAlt (Z (Bol >> Lit "---")) Eos))).

(** [#### Alternative.*?\n(.*?)(?=####|###|^##|\Z)] *)
Definition ALT_QUESTION : zregex :=
  ZSeq (Z (Lit "#### Alternative" >> star_lazy Any >> One (Chr NL) >>
           Grp 1 (star_lazy Any)))
       (ZAhead (ZAlt (Z (Lit "####"))
                 (ZAlt (Z (Lit "###"))
                   (ZAlt (Z (Bol >> Lit "##")) Eos)))).

(** [^# (.+)$] *)
Definition TITLE : regex := Bol >> Lit "# " >> Grp 1 (plus Any) >> Eol.

(** [\*\*Duration\*\*:\s*(.+)], and the same for the other two labels *)
Definition LABELLED (label : string) : regex :=
  Lit ("**" +:+ label +:+ "**:") >> star Space >> Grp 1 (plus Any).

(** an alternative record: the dict of [extract_alternatives] *)
Abbreviation AlternativeRecord := (gmap string string).

(** the body of the inner loop of [extract_alternatives] *)
Definition alternative_record (alt_content : string) : AlternativeRecord :=
  let question_text :=
    group1_or alt_content (search QUESTION_TEXT DOTALL alt_content) "N/A" in
  let expected_answer :=
    match search EXPECTED_POINTS DOTALL alt_content with
    | Some m => Str.strip (group alt_content 1 m)
    | None => "N/A"
    end in
  {[ "question_text" := question_text; "expected_answer" := expected_answer ]}.

(** the sections that an [Alternative ... Questions] heading opens *)
Definition alt_sections (content : string) : list string :=
  zfindall ALT_SECTION (flag_or MULTILINE DOTALL) content.

(** the texts under the [Alternative] headings of a section *)
Definition alt_questions (section : string) : list string :=
  zfindall ALT_QUESTION (flag_or MULTILINE DOTALL) section.

Definition extract_alternatives (content : string) : list AlternativeRecord :=
  flat_map (fun section => map alternative_record (alt_questions section))
           (alt_sections content).

(** the dict that [parse_markdown_file] returns *)
Record Interview := {
  title : string;
  duration : string;
  format : string;
  target_level : string;
  questions : list QuestionRecord;
  alternatives : list AlternativeRecord
}.

(** [file_path] is the path as text; [stem] is [file_path.stem], the name
    of the file without its suffix, which the caller knows *)
Definition parse_markdown_file (fs : filesystem) (file_path stem : string)
    : exc Interview :=
  content ← read_file fs file_path;
  let title := group1_or content (search TITLE MULTILINE content) stem in
  let duration :=
    group1_or content (search (LABELLED "Duration") NOFLAG content) "N/A" in
  let format_info :=
    group1_or content (search (LABELLED "Format") NOFLAG content) "N/A" in
  let target_level :=
    group1_or content (search (LABELLED "Target Level") NOFLAG content) "N/A" in
  questions ← extract_questions fs content;
  let alternatives := extract_alternatives content in
  Ok {| title := title; duration := duration; format := format_info;
        target_level := target_level; questions := questions;
        alternatives := alternatives |}.

End InterviewFile.

(** ** The workbook

    The writer of the workbook is an external sink. The model keeps what
    the exporter hands to it: the sheets in the order of the [to_excel]
    calls, each with its rows, a row being the columns in order; and what
    it prints. What the writer does with the sheets, and whether it fails,
    is outside the model. *)

Module Workbook.
Import InterviewExporter InterviewFile.

(** the value of a cell *)
Inductive cell :=
| Empty                  (* None *)
| Text (s : string)
| Number (n : nat).

Definition row := list (string * cell).
Definition sheet : Type := string * list row.

(** [d[key]], which raises [KeyError] on a key that is not there *)
Definition getitem (d : gmap string string) (key : string) : exc string :=
  match d !! key with
  | Some v => Ok v
  | None => Raise ("'" +:+ key +:+ "'")
  end.

(** the row of the questions sheet for one record *)
Definition question_row (q : QuestionRecord) : exc row :=
  part ← getitem q "part";
  question_title ← getitem q "question_title";
  question_text ← getitem q "question_text";
  expected_answer ← getitem q "expected_answer";
  code_answer ← getitem q "code_answer";
  followup ← getitem q "followup";
  reference_link ← getitem q "reference_link";
  reference_content ← getitem q "reference_content";
  Ok [ ("Part", Text part);
       ("Question Title", Text question_title);
       ("Question Text", Text question_text);
       ("Expected Answer Points", Text expected_answer);
       ("Code Answer", Text code_answer);
       ("Follow-up Questions", Text followup);
       ("Reference Link", Text reference_link);
       ("Reference Content", Text reference_content) ].

(** the row of the alternatives sheet for one record *)
Definition alternative_row (alt : AlternativeRecord) : exc row :=
  question_text ← getitem alt "question_text";
  expected_answer ← getitem alt "expected_answer";
  Ok [ ("Alternative Question Text", Text question_text);
       ("Expected Answer Points", Text expected_answer) ].

(** [for x in l: rows.append(f(x))] *)
Fixpoint rows_of {A} (f : A -> exc row) (l : list A) : exc (list row) :=
  match l with
  | [] => Ok []
  | x :: l' =>
      r ← f x;
      rs ← rows_of f l';
      Ok (r :: rs)
  end.

(** the row of the summary sheet for one level *)
Definition summary_row (level : string) (interview_data : Interview) : row :=
  [ ("Level", Text level);
    ("Title", Text (title interview_data));
    ("Duration", Text (duration interview_data));
    ("Format", Text (format interview_data));
    ("Target Level", Text (target_level interview_data));
    ("Number of Questions", Number (length (questions interview_data)));
    ("Number of Alternatives", Number (length (alternatives interview_data))) ].

(** the levels and their files, in the order of the dict *)
Definition interview_files : list (string * string) :=
  [ ("Junior", "junior-go-developer.md");
    ("Intermediate", "intermediate-go-developer.md");
    ("Senior", "senior-go-developer.md") ].

(** [Path(name).stem] for a name with no slash: the name up to its last
    dot, when that dot is neither its first nor its last character *)
Definition stem (name : string) : string :=
  let parts := Str.split "." name in
  let before := Str.join "." (removelast parts) in
  let suffix := List.last parts EmptyString in
  match before, suffix with
  | String _ _, String _ _ => before
  | _, _ => name
  end.

(** the sheets written so far, [df_summary] when the name is bound, and
    the lines printed *)
Record writer_state := {
  sheets : list sheet;
  df_summary : option (list row);
  log : list string
}.

Section Levels.
(** the text of [interviews_dir / filename], which is pathlib's to say *)
Variable path_of : string -> string.
Variable fs : filesystem.

(** the body of the loop over the levels; [continue] is the early [Ok] *)
Definition process_level (st : writer_state) (level filename : string)
    : exc writer_state :=
  let file_path := path_of filename in
  if negb (path_exists fs file_path)
  then Ok {| sheets := sheets st; df_summary := df_summary st;
             log := (log st ++ [ "Warning: " +:+ filename
                                 +:+ " not found, skipping " +:+ level
                                 +:+ " level" ])%list |}
  else
    let log1 := (log st ++ [ "Processing " +:+ level +:+ " level: "
                             +:+ filename ])%list in
    interview_data ← parse_markdown_file fs file_path (stem filename);
    questions_data ← rows_of question_row (questions interview_data);
    let sheets1 :=
      match questions_data with
      | _ :: _ =>
          (sheets st ++ [ (level +:+ "_Questions", questions_data) ])%list
      | [] => sheets st
      end in
    sheets2 ←
      match alternatives interview_data with
      | _ :: _ =>
          alternatives_data ←
            rows_of alternative_row (alternatives interview_data);
          Ok (sheets1 ++ [ (level +:+ "_Alternatives", alternatives_data) ])%list
      | [] => Ok sheets1
      end;
    let summary_data := [ summary_row level interview_data ] in
    let df_summary1 :=
      if String.eqb level "Junior" then Some [] else df_summary st in
    let df_summary2 :=
      match df_summary1 with
      | None => Some summary_data
      | Some rows => Some (rows ++ summary_data)%list
      end in
    Ok {| sheets := sheets2; df_summary := df_summary2; log := log1 |}.

Fixpoint levels_loop (st : writer_state) (files : list (string * string))
    : exc writer_state :=
  match files with
  | [] => Ok st
  | (level, filename) :: files' =>
      st' ← process_level st level filename;
      levels_loop st' files'
  end.

(** the body of the [with] statement of [export_to_excel], and the line
    printed after it *)
Definition export_to_excel (output_file : string) : exc writer_state :=
  st ← levels_loop {| sheets := []; df_summary := None; log := [] |}
         interview_files;
  let sheets1 :=
    match df_summary st with
    | Some rows => (sheets st ++ [ ("Summary", rows) ])%list
    | None => sheets st
    end in
  Ok {| sheets := sheets1; df_summary := df_summary st;
        log := (log st ++ [ "Excel file exported successfully: "
                            +:+ output_file ])%list |}.

End Levels.

(** *** Column widths *)

(** [bool(cell.value)] *)
Definition cell_truthy (v : cell) : bool :=
  match v with
  | Empty => false
  | Text s => Str.truthy s
  | Number n => negb (n =? 0)
  end.

(** [len(str(cell.value))] *)
Definition cell_length (v : cell) : nat :=
  match v with
  | Empty => 4
  | Text s => String.length s
  | Number n => String.length (NilZero.string_of_uint (Nat.to_uint n))
  end.

(** the loop over the cells of one column: the longest truthy value *)
Fixpoint max_length_loop (column : list cell) (max_length : nat) : nat :=
  match column with
  | [] => max_length
  | v :: column' =>
      if cell_truthy v && (max_length <? cell_length v)
      then max_length_loop column' (cell_length v)
      else max_length_loop column' max_length
  end.

(** the width that [format_worksheet] sets for a column, [None] when it
    sets none *)
Definition adjusted_width (column : list cell) : option nat :=
  let max_length := max_length_loop column 0 in
  if 0 <? max_length then
    Some (if 300 <? max_length then 80
          else if 100 <? max_length then 60
          else Nat.min (max_length + 5) 40)
  else None.

End Workbook.

Import InterviewExporter Re.

(** ** Notions the properties are stated with *)

(** what [anchor] begins with, read off its first character *)
Definition starts_with_digit (anchor : string) : bool :=
  match anchor with
  | String c _ => Str.is_digit c
  | EmptyString => false
  end.

(** every way resolution can end *)
Inductive resolution (reference_text : string) : string -> Prop :=
| res_placeholder : resolution reference_text "N/A"
| res_verbatim : reference_text <> "" -> resolution reference_text reference_text
| res_not_found (p : string) :
    resolution reference_text ("Referenced file not found: " +:+ p)
| res_error (e : string) :
    resolution reference_text ("Error fetching reference: " +:+ e)
| res_section (section : string) :
    Str.truthy section = true -> resolution reference_text section
| res_summary (content p : string) :
    resolution reference_text (create_file_summary content p).

(** the two tests that end the loop of [extract_section_by_anchor] *)
Definition section_stop (line : string) : bool :=
  is_match (re_match NEXT_NUMBERED NOFLAG line)
  || is_match (re_match LEVEL2_HEADING NOFLAG line).

(** two hashes and then a character that is not a hash *)
Definition two_hashes_only (line : string) : bool :=
  match line with
  | String h1 (String h2 (String c _)) =>
      Ascii.eqb h1 "#" && Ascii.eqb h2 "#" && negb (Ascii.eqb c "#")
  | _ => false
  end.

(** whether the text [#### Alternative] occurs in [s] at a place that is
    not the start of a line; [at_line_start] says whether [s] itself
    begins a line *)
Fixpoint midline_heading (at_line_start : bool) (s : string) : bool :=
  (negb at_line_start && Str.startswith "#### Alternative" s)
  || match s with
     | String c s' => midline_heading (Ascii.eqb c NL) s'
     | EmptyString => false
     end.

(** a text of one line: not empty, with no newline in it *)
Definition one_line (g : string) : Prop :=
  g <> "" /\ Str.split NL g = [g].

(** the value of a column in a row *)
Definition row_get (key : string) (r : Workbook.row) : option Workbook.cell :=
  option_map snd (List.find (fun kv => String.eqb (fst kv) key) r).

(** the levels whose file exists, in the order of the files *)
Definition found_levels (path_of : string -> string) (fs : filesystem)
    (files : list (string * string)) : list string :=
  map fst (List.filter (fun lf => path_exists fs (path_of (snd lf))) files).

(** the [Level] column of the summary, empty when [df_summary] is unbound *)
Definition summary_levels (d : option (list Workbook.row))
    : list (option Workbook.cell) :=
  match d with
  | Some rows => map (row_get "Level") rows
  | None => []
  end.

(** the columns of the questions sheet, in their order *)
Definition question_columns : list string :=
  [ "Part"; "Question Title"; "Question Text"; "Expected Answer Points";
    "Code Answer"; "Follow-up Questions"; "Reference Link";
    "Reference Content" ].

(** what is left of a text after [strip], when anything is left: it
    begins with a character that is no space, and [rstrip] leaves it *)
Definition trimmed (x : string) : Prop :=
  exists c t, x = String c t /\ Str.is_space c = false /\ Str.rstrip x = x.

(** a state that the matcher can reach from another: further in the same
    text, by [n] characters *)
Definition reach (st st' : mstate) : Prop :=
  exists n, pos st' = pos st + n /\ rest st' = Str.drop n (rest st)
            /\ n <= String.length (rest st).

(** the question blocks of a part, title and content, from the pieces
    that follow the first one in the split of the part *)
Fixpoint blocks_of (sections : list string) : list (string * string) :=
  match sections with
  | question_title :: question_content :: sections' =>
      (question_title, question_content) :: blocks_of sections'
  | _ => []
  end.

(** two records that agree on every key but [reference_content] *)
Definition agree_but_reference (q1 q2 : QuestionRecord) : Prop :=
  forall key : string, key <> "reference_content" -> q1 !! key = q2 !! key.

(** the keys of a question record *)
Definition record_keys : list string :=
  [ "part"; "question_title"; "question_text"; "expected_answer"; "followup";
    "reference_link"; "reference_content"; "code_answer" ].

(** ** Sample documents and file systems *)

Module Samples.

(** a text from its lines *)
Definition text (lines : list string) : string := Str.join nl lines.

(** [s] in straight quotes *)
Definition quoted (s : string) : string :=
  String QUOTE s +:+ String QUOTE EmptyString.

(** no file at all *)
Definition no_files : filesystem := fun _ => Missing.

(** the document of the end-to-end example *)
Definition slice_doc : string :=
  text [ "## Part 1: Basics";
         "### Question (5 minutes)";
         "**" +:+ quoted "What is a slice?" +:+ "**";
         "**Expected Answer Points**: Mentions pointer, length, capacity." ].

(** a block with none of the labels, under a title with no time *)
Definition bare_block : string := "Tell me about your last project.".

(** a block with every label, under a title with no time *)
Definition full_block : string :=
  text [ "";
         "**" +:+ quoted "What is a slice?" +:+ "**";
         "**Expected Answer Points**: Pointer, length, capacity.";
         "**Follow-up**: Why three fields?";
         "**Reference**: The Go tour" ].

(** the citation of the end-to-end example *)
Definition junior_citation : string :=
  "**Reference**: See [golang/junior.md - Q1](../golang/junior.md#1-intro)".

(** a referenced file: numbered questions of level 3 under a part of
    level 2, and a title of level 1 further down *)
Definition junior_md : string :=
  text [ "# Go";
         "## Basics";
         "### 1. Intro";
         "body";
         "# Top";
         "more";
         "### 2. Next";
         "x" ].

Definition junior_files : filesystem :=
  fun p => if String.eqb p "golang/junior.md" then Readable junior_md
           else Missing.

(** a numbered heading of level 3, then a title of level 1 *)
Definition level1_after : string :=
  text [ "### 1. Intro"; "body"; "# Top"; "more" ].

(** a numbered heading of level 1, then a heading of level 2 *)
Definition level2_after : string :=
  text [ "# 1. Intro"; "body"; "## Details"; "more" ].

(** coding blocks with one fenced snippet of 6, 20 and 21 characters *)
Definition fenced (code : string) : string :=
  text [ "Implement it."; "```go"; code; "```" ].

Definition snippet6 : string := "x := 1".
Definition snippet20 : string := "var total int = 1234".
Definition snippet21 : string := "var total int = 12345".

(** a long snippet and a short one in the same block *)
Definition two_snippets : string :=
  text [ "Implement it."; "```go"; "func main() { println(1) }"; "```";
         "```go"; snippet6; "```" ].

End Samples.

Module MoreSamples.
Import Samples InterviewFile Workbook.

(** an interview file with every alternative heading at the start of its
    line, as markdown has headings *)
Definition junior_interview : string :=
  text [ "# Junior Go Developer Interview";
         "**Duration**: 45 minutes";
         "## Part 1: Basics";
         "### Question (5 minutes)";
         "**" +:+ quoted "What is a slice?" +:+ "**";
         "**Expected Answer Points**: Mentions pointer, length, capacity.";
         "### Alternative Questions for Part 1";
         "";
         "#### Alternative 1: Maps";
         "**" +:+ quoted "What is a map?" +:+ "**";
         "**Expected Answer Points**: Keys and values.";
         "---";
         "## Part 2: Concurrency" ].

(** the same heading in the middle of a line *)
Definition midline_interview : string :=
  text [ "### Alternative Questions";
         "see #### Alternative 1";
         "**" +:+ quoted "What is a map?" +:+ "**";
         "**Expected Answer Points**: Keys and values.";
         "---" ].

(** the interviews directory with the junior file only *)
Definition junior_only : filesystem :=
  fun p => if String.eqb p "interviews/junior-go-developer.md"
           then Readable junior_interview else Missing.

(** the senior file there and not to be read *)
Definition senior_locked : filesystem :=
  fun p => if String.eqb p "interviews/senior-go-developer.md"
           then Unreadable "[Errno 13] Permission denied" else Missing.

(** a block with an expected answer and a reference, and neither a
    quoted question nor a follow-up *)
Definition partial_block : string :=
  text [ "";
         "**Expected Answer Points**: Pointer, length, capacity.";
         "**Reference**: The Go tour" ].

(** a part with two blocks, the first with no label at all *)
Definition two_block_part : string :=
  text [ "";
         "### Question 1 (5 minutes)";
         "Tell me about your last project.";
         "### Question 2";
         "**" +:+ quoted "What is a slice?" +:+ "**";
         "**Expected Answer Points**: Pointer, length, capacity." ].

(** the contents of its two blocks *)
Definition first_body : string :=
  nl +:+ "Tell me about your last project." +:+ nl.

Definition second_body : string :=
  text [ "";
         "**" +:+ quoted "What is a slice?" +:+ "**";
         "**Expected Answer Points**: Pointer, length, capacity." ].

(** a snippet of 17 characters *)
Definition snippet17 : string := "var total = 12345".

(** a coding block with two fences tagged go, the second one holding
    [code] *)
Definition after_fence (code : string) : string :=
  text [ "Implement it."; "```go"; "func main() { println(1) }"; "```";
         "```go"; code; "```" ].

Definition in_interviews (filename : string) : string :=
  "interviews/" +:+ filename.

End MoreSamples.

(** ** Strings and the matcher: basic facts *)

Lemma truthy_nonempty (s : string) : Str.truthy s = true <-> s <> "".
Proof.
  destruct s; simpl; split; intro H; congruence.
Qed.

Lemma append_nonempty (c : ascii) (p s : string) : String c p +:+ s <> "".
Proof. simpl. discriminate. Qed.

(** A greedy repetition that has its minimum and a continuation that
    never fails cannot fail. *)
Lemma rep_greedy_succeeds {A} fl cs lo hi (k : nat -> string -> option A) :
  (forall p s, k p s <> None) ->
  forall s n p, lo <= n -> rep_greedy fl cs lo hi k n p s <> None.
Proof.
  intros Hk s. induction s as [|c s IH]; intros n p Hn; simpl.
  - apply Nat.leb_le in Hn. rewrite Hn. apply Hk.
  - pose proof (proj2 (Nat.leb_le lo n) Hn) as Hle. rewrite Hle.
    destruct (cset_match fl cs c && below hi n).
    + specialize (IH (S n) (S p) ltac:(lia)).
      destruct (rep_greedy fl cs lo hi k (S n) (S p) s); [discriminate|easy].
    + apply Hk.
Qed.

(** [re.match(r'^\d+', anchor)] succeeds exactly on an anchor that begins
    with a digit. *)
Lemma leading_number_spec (anchor : string) :
  is_match (re_match LEADING_NUMBER NOFLAG anchor) = starts_with_digit anchor.
Proof.
  unfold re_match, match_at, LEADING_NUMBER, plus. simpl rmatch.
  destruct anchor as [|c s]; simpl; [reflexivity|].
  destruct (Str.is_digit c); simpl; [|reflexivity].
  match goal with
  | |- context [rep_greedy ?f ?cs ?lo ?hi ?k ?n ?p s] =>
      pose proof (@rep_greedy_succeeds _ f cs lo hi k
                    ltac:(intros; discriminate) s n p ltac:(lia)) as H;
      destruct (rep_greedy f cs lo hi k n p s); [reflexivity|easy]
  end.
Qed.

(** ** The reference resolver *)

Lemma create_file_summary_nonempty (content file_path : string) :
  create_file_summary content file_path <> "".
Proof.
  unfold create_file_summary.
  destruct (title_lines _ ++ headings_loop _ 0)%list; apply append_nonempty.
Qed.

Lemma link_target_placeholder : link_target "N/A" = None.
Proof. reflexivity. Qed.

Lemma link_target_empty : link_target "" = None.
Proof. reflexivity. Qed.

(** a citation with a link is neither the placeholder nor empty, so
    resolution enters the [try] *)
Lemma fetch_reference_content_link fs reference_text target :
  link_target reference_text = Some target ->
  fetch_reference_content fs reference_text =
    try_except (fetch_reference_body fs reference_text)
      (fun e => Ok ("Error fetching reference: " +:+ e)).
Proof.
  intros H. unfold fetch_reference_content.
  destruct (String.eqb reference_text "N/A") eqn:E.
  - apply String.eqb_eq in E. subst. rewrite link_target_placeholder in H.
    discriminate.
  - destruct reference_text; [rewrite link_target_empty in H; discriminate|].
    reflexivity.
Qed.

Lemma fetch_reference_content_cases fs reference_text :
  exists s, fetch_reference_content fs reference_text = Ok s
            /\ resolution reference_text s.
Proof.
  unfold fetch_reference_content.
  destruct (String.eqb reference_text "N/A" || negb (Str.truthy reference_text))
    eqn:E.
  { eexists; split; [reflexivity|apply res_placeholder]. }
  apply orb_false_elim in E as [_ E]. apply negb_false_iff in E.
  unfold fetch_reference_body.
  destruct (link_target reference_text) as [target|].
  2:{ eexists; split; [reflexivity|]. apply res_verbatim.
      now apply truthy_nonempty. }
  cbv zeta.
  destruct (negb (path_exists fs (referenced_path target))).
  { eexists; split; [reflexivity|apply res_not_found]. }
  destruct (read_file fs (referenced_path target)) as [content|e]; simpl.
  2:{ eexists; split; [reflexivity|apply res_error]. }
  destruct (match anchor_of target with
            | Some anchor => extract_section_by_anchor content anchor
            | None => Ok None
            end) as [[section|]|e]; simpl.
  - destruct (Str.truthy section) eqn:T; simpl; eexists; (split; [reflexivity|]).
    + now apply res_section.
    + apply res_summary.
  - eexists; split; [reflexivity|apply res_summary].
  - eexists; split; [reflexivity|apply res_error].
Qed.

Lemma resolution_nonempty reference_text s :
  resolution reference_text s -> s <> "".
Proof.
  destruct 1; try discriminate; try assumption.
  - now apply truthy_nonempty.
  - apply create_file_summary_nonempty.
Qed.

(** C1: reference resolution is total. For every state of the file system
    and every citation (the placeholder, the empty string, prose with no
    link, a link to a missing or unreadable file, an anchor that matches
    no heading) [fetch_reference_content] returns, it does not raise, and
    the string it returns is not empty. *)
Theorem fetch_reference_content_total (fs : filesystem) (reference_text : string) :
  exists s, fetch_reference_content fs reference_text = Ok s /\ s <> "".
Proof.
  destruct (fetch_reference_content_cases fs reference_text) as (s & Hs & Hr).
  exists s. split; [exact Hs|]. eapply resolution_nonempty; eauto.
Qed.

(** the inputs the resolver is meant to stand: the placeholder, the empty
    string, prose with no link, and a file that cannot be read *)
Example resolve_placeholder (fs : filesystem) :
  fetch_reference_content fs "N/A" = Ok "N/A".
Proof. reflexivity. Qed.

Example resolve_empty (fs : filesystem) :
  fetch_reference_content fs "" = Ok "N/A".
Proof. reflexivity. Qed.

Example resolve_prose (fs : filesystem) :
  fetch_reference_content fs "The Go tour" = Ok "The Go tour".
Proof. vm_compute. reflexivity. Qed.

Example resolve_unreadable :
  fetch_reference_content (fun _ => Unreadable "Permission denied")
    Samples.junior_citation =
  Ok "Error fetching reference: Permission denied".
Proof. vm_compute. reflexivity. Qed.

(** ** The code answer *)

Lemma is_coding_question_false (question_content : string) :
  (forall indicator, In indicator coding_indicators ->
     Str.contains (Str.lower indicator) (Str.lower question_content) = false) ->
  is_coding_question question_content = false.
Proof.
  intros H. unfold is_coding_question.
  destruct (existsb _ coding_indicators) eqn:E; [|reflexivity].
  apply existsb_exists in E as (indicator & Hin & Hc).
  rewrite (H indicator Hin) in Hc. discriminate.
Qed.

(** what [clean_blocks] keeps: the trimmed text of a collected block, when
    it is longer than 20 characters *)
Lemma clean_blocks_In (code_blocks : list string) (cleaned : string) :
  In cleaned (clean_blocks code_blocks) <->
  exists block, In block code_blocks /\ cleaned = Str.strip block
                /\ 20 < String.length cleaned.
Proof.
  induction code_blocks as [|b bs IH]; simpl.
  - split; [intros []|intros (? & [] & _)].
  - destruct (Str.truthy (Str.strip b) && (20 <? String.length (Str.strip b)))
      eqn:E.
    + apply andb_true_iff in E as [_ E]. apply Nat.ltb_lt in E.
      simpl. rewrite IH. split.
      * intros [<-|(block & Hin & Hc)]; [exists b; auto|exists block; auto].
      * intros (block & [<-|Hin] & -> & Hlen); [now left|].
        right. exists block. auto.
    + rewrite IH. split.
      * intros (block & Hin & Hc). exists block. auto.
      * intros (block & [<-|Hin] & -> & Hlen); [|exists block; auto].
        apply Nat.ltb_lt in Hlen. rewrite Hlen, andb_true_r in E.
        destruct (Str.strip b); [simpl in Hlen; discriminate|discriminate].
Qed.

Lemma is_coding_question_nonempty (question_content : string) :
  is_coding_question question_content = true -> Str.truthy question_content = true.
Proof. destruct question_content; [discriminate|reflexivity]. Qed.

(** a coding block with a snippet left after cleaning answers with the
    snippets joined *)
Lemma extract_code_answer_joined (question_content : string) :
  is_coding_question question_content = true ->
  clean_blocks (collect_code_blocks question_content) <> [] ->
  extract_code_answer question_content =
    Str.join CODE_SEPARATOR (clean_blocks (collect_code_blocks question_content)).
Proof.
  intros Hc Hne. unfold extract_code_answer.
  rewrite (is_coding_question_nonempty _ Hc), Hc. simpl. cbv zeta.
  destruct (collect_code_blocks question_content) as [|b bs] eqn:E.
  - now contradiction Hne.
  - destruct (clean_blocks (b :: bs)); [now contradiction Hne|reflexivity].
Qed.

(** C3: a block whose text contains none of the coding trigger phrases,
    compared in lower case, has the empty string as its code answer, and
    the empty string is not the placeholder of the other fields. *)
Theorem code_answer_empty_without_trigger (question_content : string) :
  (forall indicator, In indicator coding_indicators ->
     Str.contains (Str.lower indicator) (Str.lower question_content) = false) ->
  extract_code_answer question_content = ""
  /\ extract_code_answer question_content <> "N/A".
Proof.
  intros H. apply is_coding_question_false in H.
  assert (E : extract_code_answer question_content = "").
  { unfold extract_code_answer.
    destruct (Str.truthy question_content); simpl; [|reflexivity].
    now rewrite H. }
  rewrite E. split; [reflexivity|discriminate].
Qed.

(** the filter on its own: a collected snippet whose trimmed text is
    shorter than 20 characters is not one of the pieces that are joined *)
Theorem short_snippet_excluded (question_content block : string) :
  is_coding_question question_content = true ->
  In block (collect_code_blocks question_content) ->
  String.length (Str.strip block) < 20 ->
  exists joined,
    joined = clean_blocks (collect_code_blocks question_content)
    /\ ~ In (Str.strip block) joined
    /\ (joined <> [] ->
        extract_code_answer question_content = Str.join CODE_SEPARATOR joined).
Proof.
  intros Hc Hin Hlen. eexists. split; [reflexivity|]. split.
  - intros Hj. apply clean_blocks_In in Hj as (b & _ & _ & Hb). lia.
  - now apply extract_code_answer_joined.
Qed.

(** the filter on its own: a snippet is one of the pieces that are
    joined exactly when its trimmed text has 21 characters or more *)
Theorem snippet_threshold (code_blocks : list string) (block : string) :
  In block code_blocks ->
  (In (Str.strip block) (clean_blocks code_blocks)
   <-> 21 <= String.length (Str.strip block)).
Proof.
  intros Hin. rewrite clean_blocks_In. split.
  - intros (b & _ & _ & Hlen). lia.
  - intros Hlen. exists block. repeat split; [assumption|lia].
Qed.

Lemma code_answer_empty_without_trigger_witness :
  (forall indicator, In indicator coding_indicators ->
     Str.contains (Str.lower indicator) (Str.lower Samples.bare_block) = false)
  /\ extract_code_answer Samples.bare_block = ""
  /\ extract_code_answer Samples.bare_block <> "N/A".
Proof.
  assert (H : forall indicator, In indicator coding_indicators ->
     Str.contains (Str.lower indicator) (Str.lower Samples.bare_block) = false).
  { intros indicator Hin. simpl in Hin.
    repeat (destruct Hin as [<-|Hin]; [vm_compute; reflexivity|]).
    destruct Hin. }
  split; [exact H|].
  exact (code_answer_empty_without_trigger Samples.bare_block H).
Defined.

Lemma short_snippet_excluded_witness :
  In Samples.snippet6 (collect_code_blocks Samples.two_snippets)
  /\ String.length (Str.strip Samples.snippet6) < 20
  /\ ~ In (Str.strip Samples.snippet6)
         (clean_blocks (collect_code_blocks Samples.two_snippets))
  /\ extract_code_answer Samples.two_snippets = "func main() { println(1) }".
Proof.
  assert (Hin : In Samples.snippet6 (collect_code_blocks Samples.two_snippets)).
  { vm_compute. right. left. reflexivity. }
  assert (Hlen : String.length (Str.strip Samples.snippet6) < 20).
  { vm_compute. lia. }
  destruct (short_snippet_excluded Samples.two_snippets Samples.snippet6
              eq_refl Hin Hlen) as (joined & Hj & Hn & He).
  subst joined.
  split; [exact Hin|]. split; [exact Hlen|]. split; [exact Hn|].
  rewrite He; [vm_compute; reflexivity|vm_compute; discriminate].
Defined.

Lemma snippet_threshold_witness :
  In Samples.snippet20 (collect_code_blocks (Samples.fenced Samples.snippet20))
  /\ String.length (Str.strip Samples.snippet20) = 20
  /\ ~ In (Str.strip Samples.snippet20)
         (clean_blocks (collect_code_blocks (Samples.fenced Samples.snippet20))).
Proof.
  assert (Hin : In Samples.snippet20
                  (collect_code_blocks (Samples.fenced Samples.snippet20))).
  { vm_compute. left. reflexivity. }
  split; [exact Hin|]. split; [reflexivity|].
  intros H. apply (snippet_threshold _ _ Hin) in H. vm_compute in H. lia.
Defined.

(** the two sides of the threshold, on the whole extractor *)
Example code_answer_20_characters :
  extract_code_answer (Samples.fenced Samples.snippet20) = "".
Proof. vm_compute. reflexivity. Qed.

Example code_answer_21_characters :
  extract_code_answer (Samples.fenced Samples.snippet21) = Samples.snippet21.
Proof. vm_compute. reflexivity. Qed.

(** C8, the code at an input where it leaves the claim. The second fence
    holds a snippet of 17 characters. It is collected as a block tagged
    go and the filter drops it; but the pattern for untagged fences takes
    the closing fence of the first block for an opening one and collects
    the text from there to the next fence, which is the opening line of
    the second fence followed by the snippet: 23 characters with the
    keyword [var] in them. That piece passes the filter, and the snippet
    is in the joined answer. Alone in a block the same snippet is left
    out and the answer is empty. *)
Theorem short_snippet_recaptured :
  extract_code_answer (Samples.fenced MoreSamples.snippet17) = ""
  /\ collect_code_blocks (MoreSamples.after_fence MoreSamples.snippet17)
  = [ "func main() { println(1) }";
      MoreSamples.snippet17;
      "```go" +:+ nl +:+ MoreSamples.snippet17 ]
  /\ String.length (Str.strip MoreSamples.snippet17) = 17
  /\ extract_code_answer (MoreSamples.after_fence MoreSamples.snippet17)
     = Str.join CODE_SEPARATOR
         [ "func main() { println(1) }";
           "```go" +:+ nl +:+ MoreSamples.snippet17 ]
  /\ Str.contains MoreSamples.snippet17
       (extract_code_answer (MoreSamples.after_fence MoreSamples.snippet17))
     = true.
Proof. repeat split; vm_compute; reflexivity. Qed.

(** C10, the code at an input where it leaves the claim. Alone in a block
    a snippet of exactly 20 characters is left out and one of 21 is the
    answer, so the filter has the threshold of the claim; but after
    another fence the snippet of 20 characters is collected a second time
    behind the opening line of its fence, by the same defect as for C8,
    and is in the joined answer. *)
Theorem twenty_characters_recaptured :
  String.length (Str.strip Samples.snippet20) = 20
  /\ extract_code_answer (Samples.fenced Samples.snippet20) = ""
  /\ extract_code_answer (Samples.fenced Samples.snippet21) = Samples.snippet21
  /\ In Samples.snippet20
        (collect_code_blocks (MoreSamples.after_fence Samples.snippet20))
  /\ extract_code_answer (MoreSamples.after_fence Samples.snippet20)
     = Str.join CODE_SEPARATOR
         [ "func main() { println(1) }";
           "```go" +:+ nl +:+ Samples.snippet20 ]
  /\ Str.contains Samples.snippet20
       (extract_code_answer (MoreSamples.after_fence Samples.snippet20))
     = true.
Proof.
  split; [reflexivity|]. split; [vm_compute; reflexivity|].
  split; [vm_compute; reflexivity|].
  split; [vm_compute; right; left; reflexivity|].
  split; vm_compute; reflexivity.
Qed.

(** ** Question records *)

(** the record of a block, with the resolved reference content named *)
Lemma question_record_eq fs part_title question_title question_content :
  exists reference_content,
    fetch_reference_content fs (extract_reference_text question_content)
      = Ok reference_content
    /\ question_record fs part_title question_title question_content =
       Ok {[ "part" := part_title;
             "question_title" := question_title;
             "question_text" := extract_question_text question_content;
             "expected_answer" := extract_expected_answer question_content;
             "followup" := extract_followup question_content;
             "reference_link" := extract_reference_text question_content;
             "reference_content" := reference_content;
             "code_answer" := extract_code_answer question_content ]}.
Proof.
  destruct (fetch_reference_content_cases fs
              (extract_reference_text question_content)) as (rc & Hrc & _).
  exists rc. split; [exact Hrc|].
  unfold question_record. cbv zeta. rewrite Hrc. reflexivity.
Qed.

(** lists are covered two elements at a time, as the loops walk them *)
Lemma pair_induction {A} (P : list A -> Prop) :
  P [] -> (forall x, P [x]) -> (forall x y l, P l -> P (x :: y :: l)) ->
  forall l, P l.
Proof.
  intros H0 H1 H2 l.
  enough (P l /\ forall x, P (x :: l)) by tauto.
  induction l as [|y l [IH1 IH2]]; split; auto.
Qed.

(** the loop over the question blocks returns, one record a block *)
Lemma questions_loop_ok fs part_title sections :
  exists qs, questions_loop fs part_title sections = Ok qs
             /\ length qs = Nat.div2 (length sections).
Proof.
  induction sections as [| x | title body l (qs & Hqs & Hlen)]
    using pair_induction.
  - exists []. split; reflexivity.
  - exists []. split; reflexivity.
  - destruct (question_record_eq fs part_title title body) as (rc & _ & Hq).
    eexists. cbn [questions_loop]. rewrite Hq, Hqs. cbn. split; [reflexivity|].
    cbn. now rewrite Hlen.
Qed.

Lemma question_record_agree fs1 fs2 part_title question_title question_content :
  exists q1 q2,
    question_record fs1 part_title question_title question_content = Ok q1
    /\ question_record fs2 part_title question_title question_content = Ok q2
    /\ agree_but_reference q1 q2.
Proof.
  destruct (question_record_eq fs1 part_title question_title question_content)
    as (rc1 & _ & H1).
  destruct (question_record_eq fs2 part_title question_title question_content)
    as (rc2 & _ & H2).
  eexists _, _. split; [exact H1|]. split; [exact H2|].
  intros key Hkey.
  rewrite !lookup_insert. repeat case_decide; try reflexivity.
  subst. contradiction.
Qed.

Lemma questions_loop_agree fs1 fs2 part_title sections :
  exists qs1 qs2,
    questions_loop fs1 part_title sections = Ok qs1
    /\ questions_loop fs2 part_title sections = Ok qs2
    /\ Forall2 agree_but_reference qs1 qs2.
Proof.
  induction sections as [| x | title body l (qs1 & qs2 & H1 & H2 & HF)]
    using pair_induction.
  - exists [], []. repeat split; constructor.
  - exists [], []. repeat split; constructor.
  - destruct (question_record_agree fs1 fs2 part_title title body)
      as (q1 & q2 & Hq1 & Hq2 & Hq).
    exists (q1 :: qs1), (q2 :: qs2). cbn [questions_loop].
    rewrite Hq1, Hq2, H1, H2. repeat split; try reflexivity.
    now constructor.
Qed.

Lemma parts_loop_agree fs1 fs2 parts :
  exists qs1 qs2,
    parts_loop fs1 parts = Ok qs1 /\ parts_loop fs2 parts = Ok qs2
    /\ Forall2 agree_but_reference qs1 qs2.
Proof.
  induction parts as [| x | title body l (qs1 & qs2 & H1 & H2 & HF)]
    using pair_induction.
  - exists [], []. repeat split; constructor.
  - exists [], []. repeat split; constructor.
  - destruct (questions_loop_agree fs1 fs2 title
                (tl (split QUESTION_HEADING MULTILINE body)))
      as (p1 & p2 & Hp1 & Hp2 & Hp).
    exists (p1 ++ qs1)%list, (p2 ++ qs2)%list. cbn [parts_loop].
    unfold extract_questions_from_part. cbv zeta.
    rewrite Hp1, Hp2, H1, H2. repeat split; try reflexivity.
    now apply Forall2_app.
Qed.

(** C9: every field of a question record but [reference_content] is
    decided by the text alone. Two runs over the same text, whatever the
    two file systems hold for the referenced files (missing, present or
    unreadable), both return, with as many records, and the records agree
    pairwise on every key other than [reference_content]; this holds for
    one part and for the whole document. *)
Theorem fields_independent_of_files (fs1 fs2 : filesystem) :
  (forall part_title part_content,
     exists qs1 qs2,
       extract_questions_from_part fs1 part_title part_content = Ok qs1
       /\ extract_questions_from_part fs2 part_title part_content = Ok qs2
       /\ Forall2 agree_but_reference qs1 qs2)
  /\ (forall content,
        exists qs1 qs2,
          extract_questions fs1 content = Ok qs1
          /\ extract_questions fs2 content = Ok qs2
          /\ Forall2 agree_but_reference qs1 qs2).
Proof.
  split.
  - intros. apply questions_loop_agree.
  - intros. apply parts_loop_agree.
Qed.

Lemma expected_match_none (question_content : string) :
  search EXPECTED_POINTS DOTALL question_content = None ->
  search EXPECTED_BOLD DOTALL question_content = None ->
  search EXPECTED_HEADING DOTALL question_content = None ->
  extract_expected_answer question_content = "N/A".
Proof.
  intros H1 H2 H3. unfold extract_expected_answer, expected_match.
  now rewrite H1, H2, H3.
Qed.

(** the loop over the blocks returns the record of each block, in order *)
Lemma questions_loop_blocks fs part_title sections :
  exists qs,
    questions_loop fs part_title sections = Ok qs
    /\ Forall2 (fun block q =>
                  question_record fs part_title (fst block) (snd block) = Ok q)
               (blocks_of sections) qs.
Proof.
  induction sections as [| x | title body l (qs & Hqs & HF)]
    using pair_induction.
  - exists []. split; [reflexivity|constructor].
  - exists []. split; [reflexivity|constructor].
  - destruct (question_record_eq fs part_title title body) as (rc & _ & Hq).
    eexists. cbn [questions_loop blocks_of]. rewrite Hq, Hqs.
    split; [reflexivity|]. constructor; [exact Hq|exact HF].
Qed.

(** C2, as the code has it. In the record of a block the question text,
    the expected answer, the follow-up and the reference citation each
    read "N/A" when the label pattern of that field finds no match (for
    the expected answer: none of its three patterns), and the reference
    content then reads "N/A" as well; a title with no time annotation
    gives the time allocation "N/A", which is no key of the record. A
    missing field does not touch the others: each field is there with the
    value that its own pattern gives, the text captured by the first of
    its patterns that matches, whatever the other patterns do; the part
    and the title are kept, the reference content is the resolution of the
    citation, the code answer is that of the block, and the keys are the
    eight keys. And it does not touch the other blocks: a part yields the
    record of each of its blocks, in order. *)
Theorem missing_field_placeholder (fs : filesystem) (part_title : string) :
  (forall question_title question_content,
     exists q,
       question_record fs part_title question_title question_content = Ok q
       /\ (search QUESTION_TEXT DOTALL question_content = None ->
           q !! "question_text" = Some "N/A")
       /\ (search EXPECTED_POINTS DOTALL question_content = None ->
           search EXPECTED_BOLD DOTALL question_content = None ->
           search EXPECTED_HEADING DOTALL question_content = None ->
           q !! "expected_answer" = Some "N/A")
       /\ (search FOLLOWUP DOTALL question_content = None ->
           q !! "followup" = Some "N/A")
       /\ (search REFERENCE DOTALL question_content = None ->
           q !! "reference_link" = Some "N/A"
           /\ q !! "reference_content" = Some "N/A")
       /\ (search TIME_ALLOCATION NOFLAG question_title = None ->
           extract_time_allocation question_title = "N/A")
       /\ q !! "part" = Some part_title
       /\ q !! "question_title" = Some question_title
       /\ (forall m, search QUESTION_TEXT DOTALL question_content = Some m ->
           q !! "question_text" = Some (group question_content 1 m))
       /\ (forall m, search EXPECTED_POINTS DOTALL question_content = Some m ->
           q !! "expected_answer"
           = Some (Str.strip (group question_content 1 m)))
       /\ (forall m, search EXPECTED_POINTS DOTALL question_content = None ->
           search EXPECTED_BOLD DOTALL question_content = Some m ->
           q !! "expected_answer"
           = Some (Str.strip (group question_content 1 m)))
       /\ (forall m, search EXPECTED_POINTS DOTALL question_content = None ->
           search EXPECTED_BOLD DOTALL question_content = None ->
           search EXPECTED_HEADING DOTALL question_content = Some m ->
           q !! "expected_answer"
           = Some (Str.strip (group question_content 1 m)))
       /\ (forall m, search FOLLOWUP DOTALL question_content = Some m ->
           q !! "followup" = Some (Str.strip (group question_content 1 m)))
       /\ (forall m, search REFERENCE DOTALL question_content = Some m ->
           q !! "reference_link"
           = Some (Str.strip (group question_content 1 m)))
       /\ (forall link, q !! "reference_link" = Some link ->
           exists reference_content,
             fetch_reference_content fs link = Ok reference_content
             /\ q !! "reference_content" = Some reference_content)
       /\ q !! "code_answer" = Some (extract_code_answer question_content)
       /\ (forall key : string, is_Some (q !! key) <-> In key record_keys))
  /\ (forall part_content,
        exists qs,
          extract_questions_from_part fs part_title part_content = Ok qs
          /\ Forall2 (fun block q =>
                        question_record fs part_title (fst block) (snd block)
                        = Ok q)
                     (blocks_of
                        (tl (split QUESTION_HEADING MULTILINE part_content)))
                     qs
          /\ length qs =
             Nat.div2 (length (tl (split QUESTION_HEADING MULTILINE part_content)))).
Proof.
  split.
  2:{ intros part_content. unfold extract_questions_from_part. cbv zeta.
      destruct (questions_loop_blocks fs part_title
                  (tl (split QUESTION_HEADING MULTILINE part_content)))
        as (qs & Hqs & HF).
      destruct (questions_loop_ok fs part_title
                  (tl (split QUESTION_HEADING MULTILINE part_content)))
        as (qs' & Hqs' & Hlen).
      rewrite Hqs in Hqs'. injection Hqs' as <-.
      exists qs. split; [exact Hqs|]. split; [exact HF|exact Hlen]. }
  intros question_title question_content.
  destruct (question_record_eq fs part_title question_title question_content)
    as (rc & Hrc & Hq).
  eexists. split; [exact Hq|].
  repeat match goal with |- _ /\ _ => split end.
  - intros H. simplify_map_eq. unfold extract_question_text. now rewrite H.
  - intros H1 H2 H3. simplify_map_eq. now rewrite expected_match_none.
  - intros H. simplify_map_eq. unfold extract_followup. now rewrite H.
  - intros H.
    assert (E : extract_reference_text question_content = "N/A").
    { unfold extract_reference_text. now rewrite H. }
    rewrite E in Hrc |- *. vm_compute in Hrc. injection Hrc as <-.
    split; now simplify_map_eq.
  - intros H. unfold extract_time_allocation. now rewrite H.
  - now simplify_map_eq.
  - now simplify_map_eq.
  - intros m H. simplify_map_eq. unfold extract_question_text. now rewrite H.
  - intros m H. simplify_map_eq.
    unfold extract_expected_answer, expected_match. now rewrite H.
  - intros m H1 H2. simplify_map_eq.
    unfold extract_expected_answer, expected_match. now rewrite H1, H2.
  - intros m H1 H2 H3. simplify_map_eq.
    unfold extract_expected_answer, expected_match. now rewrite H1, H2, H3.
  - intros m H. simplify_map_eq. unfold extract_followup. now rewrite H.
  - intros m H. simplify_map_eq. unfold extract_reference_text. now rewrite H.
  - intros link H. exists rc. simplify_map_eq. split; [exact Hrc|reflexivity].
  - now simplify_map_eq.
  - intros key. unfold record_keys.
    rewrite !lookup_insert_is_Some, lookup_singleton_is_Some. simpl.
    intuition congruence.
Qed.

Lemma missing_field_placeholder_witness :
  (* a block with no label at all: every field reads the placeholder *)
  (exists q,
     question_record Samples.no_files "Part 1: Basics" "Question"
       Samples.bare_block = Ok q
     /\ q !! "question_text" = Some "N/A"
     /\ q !! "expected_answer" = Some "N/A"
     /\ q !! "followup" = Some "N/A"
     /\ q !! "reference_link" = Some "N/A"
     /\ q !! "reference_content" = Some "N/A"
     /\ extract_time_allocation "Question" = "N/A"
     /\ q !! "code_answer" = Some "")
  (* a block with two labels of four: the two are there, the others read
     the placeholder *)
  /\ (exists q,
        question_record Samples.no_files "Part 1: Basics" "Question"
          MoreSamples.partial_block = Ok q
        /\ q !! "question_text" = Some "N/A"
        /\ q !! "expected_answer" = Some "Pointer, length, capacity."
        /\ q !! "followup" = Some "N/A"
        /\ q !! "reference_link" = Some "The Go tour"
        /\ q !! "reference_content" = Some "The Go tour")
  (* a part with two blocks, the first with no label: both are extracted *)
  /\ (exists q1 q2,
        extract_questions_from_part Samples.no_files "Part 1: Basics"
          MoreSamples.two_block_part = Ok [ q1; q2 ]
        /\ q1 !! "question_text" = Some "N/A"
        /\ q2 !! "question_text" = Some "What is a slice?"
        /\ q2 !! "expected_answer" = Some "Pointer, length, capacity.").
Proof.
  pose proof (missing_field_placeholder Samples.no_files "Part 1: Basics")
    as [Hblock Hpart].
  split; [|split].
  - destruct (Hblock "Question" Samples.bare_block)
      as (q & Hq & Htext & Hexp & Hfol & Href & Htime & _ & _ & _ & _ & _ & _
          & _ & _ & _ & Hcode & _).
    exists q. split; [exact Hq|].
    split; [apply Htext; reflexivity|].
    split; [apply Hexp; reflexivity|].
    split; [apply Hfol; reflexivity|].
    split; [apply Href; reflexivity|].
    split; [apply Href; reflexivity|].
    split; [apply Htime; reflexivity|].
    rewrite Hcode. reflexivity.
  - destruct (Hblock "Question" MoreSamples.partial_block)
      as (q & Hq & Htext & _ & Hfol & _ & _ & _ & _ & _ & Hexp & _ & _
          & _ & Href & Hrc & _ & _).
    exists q. split; [exact Hq|].
    split; [apply Htext; reflexivity|].
    destruct (search EXPECTED_POINTS DOTALL MoreSamples.partial_block)
      as [m1|] eqn:E1; [|vm_compute in E1; discriminate].
    destruct (search REFERENCE DOTALL MoreSamples.partial_block)
      as [m2|] eqn:E2; [|vm_compute in E2; discriminate].
    specialize (Hexp m1 eq_refl). specialize (Href m2 eq_refl).
    vm_compute in E1. injection E1 as <-.
    vm_compute in E2. injection E2 as <-.
    destruct (Hrc _ Href) as (rc & Hf & Hc).
    vm_compute in Hf. injection Hf as <-.
    split; [rewrite Hexp; vm_compute; reflexivity|].
    split; [apply Hfol; reflexivity|].
    split; [rewrite Href; vm_compute; reflexivity|exact Hc].
  - destruct (Hpart MoreSamples.two_block_part) as (qs & Hqs & HF & _).
    assert (Hb : blocks_of
                   (tl (split QUESTION_HEADING MULTILINE
                          MoreSamples.two_block_part))
                 = [ ("Question 1 (5 minutes)", MoreSamples.first_body);
                     ("Question 2", MoreSamples.second_body) ])
      by (vm_compute; reflexivity).
    rewrite Hb in HF.
    inversion HF as [|b1 q1 l1 l1' H1 HF1]; subst.
    inversion HF1 as [|b2 q2 l2 l2' H2 HF2]; subst.
    inversion HF2; subst.
    exists q1, q2. split; [exact Hqs|].
    cbn [fst snd] in H1, H2.
    destruct (Hblock "Question 1 (5 minutes)" MoreSamples.first_body)
      as (q & Hq & Htext & _).
    rewrite Hq in H1. injection H1 as <-.
    split; [apply Htext; reflexivity|].
    destruct (Hblock "Question 2" MoreSamples.second_body)
      as (q' & Hq' & _ & _ & _ & _ & _ & _ & _ & Htext' & Hexp & _).
    rewrite Hq' in H2. injection H2 as <-.
    destruct (search QUESTION_TEXT DOTALL MoreSamples.second_body)
      as [m1|] eqn:E1; [|vm_compute in E1; discriminate].
    destruct (search EXPECTED_POINTS DOTALL MoreSamples.second_body)
      as [m2|] eqn:E2; [|vm_compute in E2; discriminate].
    specialize (Htext' m1 eq_refl). specialize (Hexp m2 eq_refl).
    vm_compute in E1. injection E1 as <-.
    vm_compute in E2. injection E2 as <-.
    split; [rewrite Htext'|rewrite Hexp]; vm_compute; reflexivity.
Defined.

(** C2 as stated fails for the time allocation: under a title with no
    time annotation the record has no key for it, and when the other
    labels are all there no key at all reads "N/A". *)
Lemma time_allocation_not_in_record :
  search TIME_ALLOCATION NOFLAG "Question" = None
  /\ exists q,
       question_record Samples.no_files "Part 1: Basics" "Question"
         Samples.full_block = Ok q
       /\ q !! "time_allocation" = None
       /\ forall key, q !! key <> Some "N/A".
Proof.
  split; [reflexivity|].
  destruct (question_record_eq Samples.no_files "Part 1: Basics" "Question"
              Samples.full_block) as (rc & Hrc & Hq).
  vm_compute in Hrc. injection Hrc as <-.
  eexists. split; [exact Hq|]. split; [reflexivity|].
  intros key H.
  repeat (apply lookup_insert_Some in H as [[_ H]|[_ H]];
          [vm_compute in H; discriminate|]).
  apply lookup_singleton_Some in H as [_ H]. vm_compute in H. discriminate.
Qed.

(** the one record of the example document *)
Lemma slice_doc_records (fs : filesystem) :
  extract_questions fs Samples.slice_doc =
    Ok [ {[ "part" := "Part 1: Basics";
            "question_title" := "Question (5 minutes)";
            "question_text" := "What is a slice?";
            "expected_answer" := "Mentions pointer, length, capacity.";
            "followup" := "N/A";
            "reference_link" := "N/A";
            "reference_content" := "N/A";
            "code_answer" := "" ]} ].
Proof. vm_compute. reflexivity. Qed.

(** C5, as the code has it: the document of the example yields exactly one
    record, with the part, the title with its time annotation, the
    question text, the expected answer and an empty code answer; the
    fields with no label read "N/A". The time allocation parsed from the
    title is "5 minutes"; the record has no field for it. *)
Theorem slice_example (fs : filesystem) :
  extract_questions fs Samples.slice_doc =
    Ok [ {[ "part" := "Part 1: Basics";
            "question_title" := "Question (5 minutes)";
            "question_text" := "What is a slice?";
            "expected_answer" := "Mentions pointer, length, capacity.";
            "followup" := "N/A";
            "reference_link" := "N/A";
            "reference_content" := "N/A";
            "code_answer" := "" ]} ]
  /\ extract_time_allocation "Question (5 minutes)" = "5 minutes".
Proof. split; [apply slice_doc_records|vm_compute; reflexivity]. Qed.

(** C5 as stated fails: the one record of the example has no time
    allocation, under that key or any other. *)
Lemma slice_example_no_time_allocation :
  ~ (exists q, extract_questions Samples.no_files Samples.slice_doc = Ok [q]
               /\ (q !! "time_allocation" = Some "5 minutes"
                   \/ exists key, q !! key = Some "5 minutes")).
Proof.
  intros (q & Hq & H).
  rewrite slice_doc_records in Hq.
  injection Hq as <-.
  destruct H as [H|(key & H)]; [vm_compute in H; discriminate|].
  repeat (apply lookup_insert_Some in H as [[_ H]|[_ H]];
          [vm_compute in H; discriminate|]).
  apply lookup_singleton_Some in H as [_ H]. vm_compute in H. discriminate.
Qed.

(** ** Paths and anchors *)

Lemma strip_parent_prefix (rest : string) :
  strip_parent ("../" +:+ rest) = rest.
Proof. vm_compute. reflexivity. Qed.

Lemma split_nonempty (sep : ascii) (s : string) : Str.split sep s <> [].
Proof.
  destruct s as [|c s]; simpl; [discriminate|].
  destruct (Ascii.eqb c sep); [discriminate|].
  destruct (Str.split sep s); discriminate.
Qed.

Lemma contains_hash_cons (c : ascii) (s : string) :
  Str.contains "#" (String c s) = Ascii.eqb c "#" || Str.contains "#" s.
Proof.
  cbn [Str.contains Str.startswith]. rewrite andb_true_r.
  now rewrite (Ascii.eqb_sym "#" c).
Qed.

(** the piece before the first [#] has no [#], and the text is that piece
    followed by nothing or by a fragment that starts with [#] *)
Lemma split_hash_head (s : string) :
  Str.contains "#" (hd EmptyString (Str.split "#" s)) = false
  /\ exists fragment,
       s = hd EmptyString (Str.split "#" s) +:+ fragment
       /\ (fragment = "" \/ exists f, fragment = String "#" f).
Proof.
  induction s as [|c s (IH & fragment & Hs & Hf)].
  - split; [reflexivity|]. exists "". split; [reflexivity|now left].
  - cbn [Str.split]. destruct (Ascii.eqb_spec c "#") as [->|Hne].
    + split; [reflexivity|]. exists (String "#" s). split; [reflexivity|].
      right. now exists s.
    + pose proof (split_nonempty "#" s) as Hn.
      destruct (Str.split "#" s) as [|h t]; [now contradiction Hn|].
      cbn [hd] in *. split.
      * rewrite contains_hash_cons, IH.
        destruct (Ascii.eqb_spec c "#"); [contradiction|reflexivity].
      * exists fragment. split; [|exact Hf].
        change (String c h +:+ fragment) with (String c (h +:+ fragment)).
        now rewrite <- Hs.
Qed.

Lemma strip_fragment_spec (file_path : string) :
  Str.contains "#" (strip_fragment file_path) = false
  /\ exists fragment,
       file_path = strip_fragment file_path +:+ fragment
       /\ (fragment = "" \/ exists f, fragment = String "#" f).
Proof.
  unfold strip_fragment. destruct (Str.contains "#" file_path) eqn:E.
  - apply split_hash_head.
  - split; [exact E|]. exists "". split; [|now left].
    clear E. induction file_path as [|c s IH]; [reflexivity|].
    change (String c s +:+ "") with (String c (s +:+ "")). now rewrite <- IH.
Qed.

(** C6: when the target of the link in a citation is [../] followed by
    [rest], the path that is checked is [rest] without its [#] fragment;
    when nothing exists at that path, resolution returns the not-found
    message that names it. In particular the citation of the example, with
    [golang/junior.md] absent, resolves to a message that contains
    [golang/junior.md] and says that it was not found. *)
Theorem missing_reference_named :
  (forall (fs : filesystem) (reference_text rest : string),
     link_target reference_text = Some ("../" +:+ rest) ->
     fs (strip_fragment rest) = Missing ->
     referenced_path ("../" +:+ rest) = strip_fragment rest
     /\ Str.contains "#" (strip_fragment rest) = false
     /\ fetch_reference_content fs reference_text =
        Ok ("Referenced file not found: " +:+ strip_fragment rest))
  /\ (forall fs : filesystem,
        fs "golang/junior.md" = Missing ->
        exists s,
          fetch_reference_content fs Samples.junior_citation = Ok s
          /\ s = "Referenced file not found: golang/junior.md"
          /\ Str.contains "golang/junior.md" s = true
          /\ Str.contains "not found" s = true).
Proof.
  assert (G : forall (fs : filesystem) (reference_text rest : string),
     link_target reference_text = Some ("../" +:+ rest) ->
     fs (strip_fragment rest) = Missing ->
     fetch_reference_content fs reference_text =
        Ok ("Referenced file not found: " +:+ strip_fragment rest)).
  { intros fs reference_text rest Hlink Hfs.
    rewrite (fetch_reference_content_link fs _ _ Hlink).
    unfold fetch_reference_body. rewrite Hlink. cbv zeta.
    unfold referenced_path. rewrite strip_parent_prefix.
    unfold path_exists. rewrite Hfs. reflexivity. }
  split.
  - intros fs reference_text rest Hlink Hfs.
    split; [unfold referenced_path; now rewrite strip_parent_prefix|].
    split; [apply strip_fragment_spec|now apply G].
  - intros fs Hfs. eexists. split.
    + apply (G fs Samples.junior_citation "golang/junior.md#1-intro");
        [reflexivity|exact Hfs].
    + repeat split; reflexivity.
Qed.

Lemma missing_reference_named_witness :
  link_target Samples.junior_citation = Some "../golang/junior.md#1-intro"
  /\ Samples.no_files (strip_fragment "golang/junior.md#1-intro") = Missing
  /\ fetch_reference_content Samples.no_files Samples.junior_citation =
     Ok "Referenced file not found: golang/junior.md".
Proof.
  split; [reflexivity|]. split; [reflexivity|].
  exact (proj2 (proj2 (proj1 missing_reference_named Samples.no_files
                         Samples.junior_citation "golang/junior.md#1-intro"
                         eq_refl eq_refl))).
Defined.

(** an anchor that does not begin with a digit, or whose number finds no
    heading, gives no section *)
Lemma extract_section_by_anchor_none (content anchor : string) :
  starts_with_digit anchor = false
  \/ search (NUMBERED_HEADING (hd EmptyString (Str.split "-" anchor)))
       (flag_or MULTILINE IGNORECASE) content = None ->
  extract_section_by_anchor content anchor = Ok None.
Proof.
  intros H. unfold extract_section_by_anchor.
  rewrite leading_number_spec.
  destruct (starts_with_digit anchor); [|reflexivity].
  destruct H as [H|H]; [discriminate|]. cbv zeta. now rewrite H.
Qed.

(** C7: with the referenced file there and readable, an anchor that does
    not begin with a digit, or whose leading number finds no heading in
    the file, gives no section, and resolution returns the summary of the
    file. *)
Theorem anchor_extraction_fallback (fs : filesystem)
    (reference_text target anchor content : string) :
  link_target reference_text = Some target ->
  fs (referenced_path target) = Readable content ->
  anchor_of target = Some anchor ->
  starts_with_digit anchor = false
  \/ search (NUMBERED_HEADING (hd EmptyString (Str.split "-" anchor)))
       (flag_or MULTILINE IGNORECASE) content = None ->
  extract_section_by_anchor content anchor = Ok None
  /\ fetch_reference_content fs reference_text =
     Ok (create_file_summary content (referenced_path target)).
Proof.
  intros Hlink Hfs Hanchor H.
  pose proof (extract_section_by_anchor_none content anchor H) as Hnone.
  split; [exact Hnone|].
  rewrite (fetch_reference_content_link fs _ _ Hlink).
  unfold fetch_reference_body. rewrite Hlink. cbv zeta.
  unfold path_exists, read_file. rewrite Hfs. cbn.
  rewrite Hanchor, Hnone. reflexivity.
Qed.

Lemma anchor_extraction_fallback_witness :
  (* an anchor with no digit in front *)
  fetch_reference_content Samples.junior_files
    "See [golang/junior.md](../golang/junior.md#intro)" =
    Ok (create_file_summary Samples.junior_md "golang/junior.md")
  (* a number that no heading of the file begins with *)
  /\ fetch_reference_content Samples.junior_files
       "See [golang/junior.md](../golang/junior.md#7-intro)" =
       Ok (create_file_summary Samples.junior_md "golang/junior.md").
Proof.
  split.
  - exact (proj2 (anchor_extraction_fallback Samples.junior_files
             "See [golang/junior.md](../golang/junior.md#intro)"
             "../golang/junior.md#intro" "intro" Samples.junior_md
             eq_refl eq_refl eq_refl (or_introl eq_refl))).
  - exact (proj2 (anchor_extraction_fallback Samples.junior_files
             "See [golang/junior.md](../golang/junior.md#7-intro)"
             "../golang/junior.md#7-intro" "7-intro" Samples.junior_md
             eq_refl eq_refl eq_refl (or_intror eq_refl))).
Defined.

(** ** Where a section ends *)

(** the second test of the loop looks for two hashes and no third,
    whatever the level of the heading that was matched *)
Lemma level2_heading_spec (line : string) :
  is_match (re_match LEVEL2_HEADING NOFLAG line) = two_hashes_only line.
Proof.
  unfold re_match, match_at, LEVEL2_HEADING, two_hashes_only.
  cbn [rmatch at_bol pos rest caps lit char_eq cset_match mem_char
       ignorecase NOFLAG String.length].
  destruct line as [|h1 [|h2 [|c line]]]; try reflexivity.
  - rewrite (Ascii.eqb_sym "#" h1). destruct (Ascii.eqb h1 "#"); reflexivity.
  - rewrite (Ascii.eqb_sym "#" h1), (Ascii.eqb_sym "#" h2).
    destruct (Ascii.eqb h1 "#"), (Ascii.eqb h2 "#"); reflexivity.
  - rewrite (Ascii.eqb_sym "#" h1), (Ascii.eqb_sym "#" h2).
    destruct (Ascii.eqb h1 "#"), (Ascii.eqb h2 "#"); try reflexivity.
    cbn [andb]. rewrite (Ascii.eqb_sym "#" c), orb_false_r.
    destruct (Ascii.eqb c "#"); reflexivity.
Qed.

(** the loop takes the lines up to the first one that passes a stop test *)
Lemma section_loop_spec (lines : list string) :
  exists rest,
    lines = (section_loop lines ++ rest)%list
    /\ Forall (fun line => section_stop line = false) (section_loop lines)
    /\ match rest with
       | [] => True
       | line :: _ => section_stop line = true
       end.
Proof.
  induction lines as [|line lines (rest & Hl & Hf & Hr)].
  - exists []. repeat split. constructor.
  - cbn [section_loop].
    destruct (is_match (re_match NEXT_NUMBERED NOFLAG line)) eqn:E1.
    { exists (line :: lines). repeat split; [constructor|].
      unfold section_stop. now rewrite E1. }
    destruct (is_match (re_match LEVEL2_HEADING NOFLAG line)) eqn:E2.
    { exists (line :: lines). repeat split; [constructor|].
      unfold section_stop. now rewrite E1, E2. }
    exists rest. split; [cbn; now rewrite <- Hl|]. split; [|exact Hr].
    constructor; [|exact Hf]. unfold section_stop. now rewrite E1, E2.
Qed.

(** C4, the code at the inputs where it leaves the claim: after the
    matched heading [### 1. Intro] of level 3 the title [# Top] of level 1
    does not end the section, and after the matched heading [# 1. Intro] of
    level 1 the heading [## Details] of level 2 does. *)
Theorem section_end_ignores_matched_level :
  extract_section_by_anchor Samples.level1_after "1-intro" =
    Ok (Some (Samples.text [ "### 1. Intro"; "body"; "# Top"; "more" ]))
  /\ extract_section_by_anchor Samples.level2_after "1-intro" =
     Ok (Some (Samples.text [ "# 1. Intro"; "body" ])).
Proof. split; vm_compute; reflexivity. Qed.

(** ** Splitting: facts about the scanner *)

(** when the search from [p] finds nothing, no position from [p] on has a
    match, and the scanner returns no match *)
Lemma scan_no_match fl subject r (s : string) :
  forall p, search_from fl subject r p s = None ->
            scan fl subject r 0 p s = [].
Proof.
  induction s as [|c s IH]; intros p H; cbn [search_from] in H;
    cbn [scan]; unfold matches_here;
    destruct (match_at fl subject r false p) as [m|] eqn:E;
    try discriminate; cbn.
  - reflexivity.
  - now apply IH.
Qed.

(** [re.split] on a text the pattern does not occur in gives the text *)
Lemma split_no_match r fl (s : string) :
  search r fl s = None -> split r fl s = [s].
Proof.
  intros H. unfold split, finditer.
  rewrite (scan_no_match fl s r s 0 H). reflexivity.
Qed.

(** X1: a document in which no line is a part heading ([## Part] and a
    number) has no question at all, whatever else it holds. *)
Theorem no_part_heading_no_question (fs : filesystem) (content : string) :
  search PART_HEADING MULTILINE content = None ->
  extract_questions fs content = Ok [].
Proof.
  intros H. unfold extract_questions. cbv zeta.
  now rewrite (split_no_match _ _ _ H).
Qed.

Lemma no_part_heading_no_question_witness :
  search PART_HEADING MULTILINE
    (Samples.text [ "# Go"; "## Introduction"; "### Question (5 minutes)";
                    "## Partial notes" ]) = None
  /\ extract_questions Samples.no_files
       (Samples.text [ "# Go"; "## Introduction"; "### Question (5 minutes)";
                       "## Partial notes" ]) = Ok [].
Proof.
  split; [reflexivity|].
  apply no_part_heading_no_question. reflexivity.
Defined.

(** X2: a part in which no line is one of the recognised question
    headings has no question; other headings of level 3 do not count. *)
Theorem no_question_heading_no_question (fs : filesystem)
    (part_title part_content : string) :
  search QUESTION_HEADING MULTILINE part_content = None ->
  extract_questions_from_part fs part_title part_content = Ok [].
Proof.
  intros H. unfold extract_questions_from_part. cbv zeta.
  now rewrite (split_no_match _ _ _ H).
Qed.

Lemma no_question_heading_no_question_witness :
  search QUESTION_HEADING MULTILINE
    (Samples.text [ ""; "### Warm-up"; "text"; "#### Question 1";
                    "### question in lower case" ]) = None
  /\ extract_questions_from_part Samples.no_files "Part 1: Basics"
       (Samples.text [ ""; "### Warm-up"; "text"; "#### Question 1";
                       "### question in lower case" ]) = Ok [].
Proof.
  split; [reflexivity|].
  apply no_question_heading_no_question. reflexivity.
Defined.

(** ** Every record of a document *)

(** what holds of the record of each block holds of every record of a
    part; [P] may depend on the title of the part *)
Lemma questions_loop_Forall (P : string -> QuestionRecord -> Prop) fs :
  (forall part title body,
     exists q, question_record fs part title body = Ok q /\ P part q) ->
  forall part sections,
    exists qs, questions_loop fs part sections = Ok qs /\ Forall (P part) qs.
Proof.
  intros HP part sections.
  induction sections as [| x | title body l (qs & Hqs & HF)]
    using pair_induction.
  - exists []. split; [reflexivity|constructor].
  - exists []. split; [reflexivity|constructor].
  - destruct (HP part title body) as (q & Hq & Pq).
    exists (q :: qs). cbn [questions_loop]. rewrite Hq, Hqs.
    split; [reflexivity|now constructor].
Qed.

Lemma split_pieces_cons subject ms last :
  split_pieces subject ms last =
    hd EmptyString (split_pieces subject ms last)
    :: tl (split_pieces subject ms last).
Proof. destruct ms; reflexivity. Qed.

(** and of every record of a document, for the part titles that the
    heading pattern captured *)
Lemma parts_loop_Forall (P : string -> QuestionRecord -> Prop) fs content :
  (forall part title body,
     exists q, question_record fs part title body = Ok q /\ P part q) ->
  forall ms last,
    exists qs,
      parts_loop fs (tl (split_pieces content ms last)) = Ok qs
      /\ Forall (fun q => exists m, In m ms /\ P (group content 1 m) q) qs.
Proof.
  intros HP ms. induction ms as [|m ms IH]; intros last.
  - exists []. split; [reflexivity|constructor].
  - cbn [split_pieces tl]. rewrite (split_pieces_cons content ms (mend m)).
    cbn [parts_loop]. unfold extract_questions_from_part. cbv zeta.
    destruct (questions_loop_Forall P fs HP (group content 1 m)
                (tl (split QUESTION_HEADING MULTILINE
                       (hd EmptyString (split_pieces content ms (mend m))))))
      as (ps & Hps & HFp).
    destruct (IH (mend m)) as (qs & Hqs & HF).
    exists (ps ++ qs)%list. rewrite Hps, Hqs. split; [reflexivity|].
    apply Forall_app. split.
    + eapply Forall_impl; [exact HFp|]. intros q Hq. exists m.
      split; [now left|exact Hq].
    + eapply Forall_impl; [exact HF|]. intros q (m' & Hin & Hq). exists m'.
      split; [now right|exact Hq].
Qed.

Lemma question_record_keys fs part title body :
  exists q, question_record fs part title body = Ok q
            /\ forall key : string, is_Some (q !! key) <-> In key record_keys.
Proof.
  destruct (question_record_eq fs part title body) as (rc & _ & Hq).
  eexists. split; [exact Hq|]. intros key. unfold record_keys.
  rewrite !lookup_insert_is_Some, lookup_singleton_is_Some. simpl.
  intuition congruence.
Qed.

(** X3: every record that [extract_questions] returns has the same eight
    keys and no other, whatever the block it comes from lacks. *)
Theorem records_have_eight_keys (fs : filesystem) (content : string) :
  exists qs,
    extract_questions fs content = Ok qs
    /\ Forall (fun q : QuestionRecord =>
                 forall key : string,
                   is_Some (q !! key) <-> In key record_keys) qs.
Proof.
  destruct (parts_loop_Forall
              (fun _ q => forall key : string,
                          is_Some (q !! key) <-> In key record_keys)
              fs content (question_record_keys fs)
              (finditer PART_HEADING MULTILINE content) 0)
    as (qs & Hqs & HF).
  exists qs. split; [exact Hqs|].
  eapply Forall_impl; [exact HF|]. now intros q (m & _ & Hq).
Qed.

(** X4: the part of every record is, verbatim, one of the part titles
    that the part heading pattern finds in the document. *)
Theorem records_keep_part_title (fs : filesystem) (content : string) :
  exists qs,
    extract_questions fs content = Ok qs
    /\ Forall (fun q : QuestionRecord =>
                 exists part,
                   In part (findall PART_HEADING MULTILINE content)
                   /\ q !! "part" = Some part) qs.
Proof.
  destruct (parts_loop_Forall (fun part q => q !! "part" = Some part)
              fs content) with (ms := finditer PART_HEADING MULTILINE content)
                               (last := 0)
    as (qs & Hqs & HF).
  { intros part title body.
    destruct (question_record_eq fs part title body) as (rc & _ & Hq).
    eexists. split; [exact Hq|]. now simplify_map_eq. }
  exists qs. split; [exact Hqs|].
  eapply Forall_impl; [exact HF|]. intros q (m & Hin & Hq).
  exists (group content 1 m). split; [|exact Hq].
  unfold findall. now apply in_map.
Qed.

(** ** The resolver and the file system *)

(** X5: resolution looks at one path only, the one the link of the
    citation names: two file systems that agree there give the same
    result, and a citation with no link does not depend on the file
    system at all. *)
Theorem resolution_reads_one_path (fs1 fs2 : filesystem)
    (reference_text : string) :
  (forall target, link_target reference_text = Some target ->
                  fs1 (referenced_path target) = fs2 (referenced_path target)) ->
  fetch_reference_content fs1 reference_text
  = fetch_reference_content fs2 reference_text.
Proof.
  intros H. unfold fetch_reference_content, fetch_reference_body.
  destruct (link_target reference_text) as [target|]; [|reflexivity].
  cbv zeta. unfold path_exists, read_file.
  now rewrite (H target eq_refl).
Qed.

Lemma resolution_reads_one_path_witness :
  fetch_reference_content Samples.junior_files Samples.junior_citation
  = fetch_reference_content
      (fun p => if String.eqb p "golang/junior.md"
                then Readable Samples.junior_md
                else Unreadable "Permission denied")
      Samples.junior_citation.
Proof.
  apply resolution_reads_one_path. intros target H.
  vm_compute in H. injection H as <-. reflexivity.
Defined.

(** X6: when the referenced path exists and cannot be read, the error
    raised by reading is caught and comes back as the text
    [Error fetching reference: ] followed by the error. *)
Theorem unreadable_reference_reported (fs : filesystem)
    (reference_text target err : string) :
  link_target reference_text = Some target ->
  fs (referenced_path target) = Unreadable err ->
  fetch_reference_content fs reference_text
  = Ok ("Error fetching reference: " +:+ err).
Proof.
  intros Hlink Hfs. rewrite (fetch_reference_content_link fs _ _ Hlink).
  unfold fetch_reference_body. rewrite Hlink. cbv zeta.
  unfold path_exists, read_file. rewrite Hfs. reflexivity.
Qed.

Lemma unreadable_reference_reported_witness :
  fetch_reference_content (fun _ => Unreadable "[Errno 13] Permission denied")
    "See [sql/query.md](../sql/query.md)"
  = Ok "Error fetching reference: [Errno 13] Permission denied".
Proof.
  apply (unreadable_reference_reported _ _ "../sql/query.md"); reflexivity.
Defined.

(** ** The section of an anchor *)

Lemma match_at_start fl subject r b p s m :
  match_at fl subject r b p s = Some m -> mstart m = p.
Proof.
  unfold match_at. destruct (rmatch _ _ _ _ _); [|discriminate].
  now intros [= <-].
Qed.

(** a successful search is a successful attempt at the start of the match *)
Lemma search_from_at fl subject r (s : string) :
  forall p m,
    search_from fl subject r p s = Some m ->
    exists k, mstart m = p + k
              /\ match_at fl subject r false (p + k) (Str.drop k s) = Some m.
Proof.
  induction s as [|c s IH]; intros p m H; cbn [search_from] in H;
    destruct (match_at fl subject r false p) as [m0|] eqn:E;
    try discriminate.
  - injection H as <-. exists 0. rewrite Nat.add_0_r.
    split; [now apply match_at_start in E|exact E].
  - injection H as <-. exists 0. rewrite Nat.add_0_r.
    split; [now apply match_at_start in E|exact E].
  - destruct (IH (S p) m H) as (k & Hk & Hm). exists (S k).
    rewrite <- plus_n_Sm. split; [exact Hk|exact Hm].
Qed.

(** a repetition of one or more begins with a character of the class *)
Lemma rep_greedy_first {A} fl cs lo hi (k : nat -> string -> option A) p s x :
  1 <= lo -> rep_greedy fl cs lo hi k 0 p s = Some x ->
  exists c s', s = String c s' /\ cset_match fl cs c = true.
Proof.
  intros Hlo H.
  assert (E : (lo <=? 0) = false) by (apply Nat.leb_gt; lia).
  destruct s as [|c s]; cbn in H; rewrite E in H; [discriminate|].
  destruct (cset_match fl cs c) eqn:C; [|cbn in H; discriminate].
  now exists c, s.
Qed.

Lemma lower_char_hash (c : ascii) :
  Ascii.eqb (Str.lower_char "#") (Str.lower_char c) = true -> c = "#"%char.
Proof.
  destruct c as [[] [] [] [] [] [] [] []]; vm_compute; congruence.
Qed.

(** a numbered heading begins with a hash *)
Lemma numbered_heading_hash token subject p s m :
  match_at (flag_or MULTILINE IGNORECASE) subject (NUMBERED_HEADING token)
    false p s = Some m ->
  exists s', s = String "#" s'.
Proof.
  unfold match_at, NUMBERED_HEADING, plus. cbn [rmatch pos rest caps].
  destruct (at_bol _ _ p); [|discriminate].
  destruct (rep_greedy _ _ _ _ _ _ _ _) as [st|] eqn:E; [|discriminate].
  intros _. apply rep_greedy_first in E as (c & s' & -> & Hc); [|lia].
  apply lower_char_hash in Hc. subst c. now exists s'.
Qed.

Lemma split_head_cons (sep c : ascii) (s : string) :
  Ascii.eqb c sep = false ->
  hd EmptyString (Str.split sep (String c s))
  = String c (hd EmptyString (Str.split sep s)).
Proof.
  intros H. cbn [Str.split]. rewrite H.
  pose proof (split_nonempty sep s) as Hn.
  destruct (Str.split sep s); [now contradiction Hn|reflexivity].
Qed.

Lemma rstrip_head (c : ascii) (s : string) :
  Str.is_space c = false -> exists t, Str.rstrip (String c s) = String c t.
Proof.
  intros H. cbn [Str.rstrip]. rewrite H.
  destruct (Str.rstrip s); eexists; reflexivity.
Qed.

Lemma strip_head (c : ascii) (s : string) :
  Str.is_space c = false -> exists t, Str.strip (String c s) = String c t.
Proof.
  intros H. unfold Str.strip. cbn [Str.lstrip]. rewrite H.
  now apply rstrip_head.
Qed.

(** X7: a section that [extract_section_by_anchor] returns is never empty:
    it begins with the hash of the heading that was matched, and the
    anchor it was found for begins with a digit. *)
Theorem section_begins_with_heading (content anchor section : string) :
  extract_section_by_anchor content anchor = Ok (Some section) ->
  starts_with_digit anchor = true
  /\ exists t, section = String "#" t.
Proof.
  unfold extract_section_by_anchor. rewrite leading_number_spec.
  destruct (starts_with_digit anchor); [|discriminate]. cbv zeta.
  destruct (search _ _ content) as [m|] eqn:E; [|discriminate].
  cbn [try_except]. intros [= <-]. split; [reflexivity|].
  apply search_from_at in E as (k & Hk & Hm). cbn in Hk. subst k.
  apply numbered_heading_hash in Hm as (s' & Hs). cbn in Hs. rewrite Hs.
  rewrite split_head_cons by reflexivity.
  destruct (section_loop _); [now apply strip_head|].
  exact (strip_head "#" (_ +:+ _) eq_refl).
Qed.

Lemma section_begins_with_heading_witness :
  extract_section_by_anchor Samples.junior_md "2-next"
  = Ok (Some (Samples.text [ "### 2. Next"; "x" ]))
  /\ exists t, Samples.text [ "### 2. Next"; "x" ] = String "#" t.
Proof.
  assert (H : extract_section_by_anchor Samples.junior_md "2-next"
              = Ok (Some (Samples.text [ "### 2. Next"; "x" ])))
    by (vm_compute; reflexivity).
  split; [exact H|].
  exact (proj2 (section_begins_with_heading _ _ _ H)).
Defined.

(** ** The summary of a file *)











(** ** Trimmed text *)

Lemma lstrip_cases (s : string) :
  Str.lstrip s = ""
  \/ exists c t, Str.lstrip s = String c t /\ Str.is_space c = false.
Proof.
  induction s as [|c s IH]; cbn [Str.lstrip]; [now left|].
  destruct (Str.is_space c) eqn:E; [exact IH|]. right. now exists c, s.
Qed.

Lemma rstrip_idem (s : string) : Str.rstrip (Str.rstrip s) = Str.rstrip s.
Proof.
  induction s as [|c s IH]; [reflexivity|]. cbn [Str.rstrip].
  destruct (Str.rstrip s) as [|d r] eqn:E.
  - destruct (Str.is_space c) eqn:Ec; [reflexivity|].
    cbn [Str.rstrip]. now rewrite Ec.
  - cbn [Str.rstrip]. cbn [Str.rstrip] in IH. now rewrite IH.
Qed.

Lemma strip_trimmed (s : string) : Str.strip s = "" \/ trimmed (Str.strip s).
Proof.
  unfold Str.strip. destruct (lstrip_cases s) as [->|(c & t & -> & Hc)].
  - now left.
  - right. destruct (rstrip_head c t Hc) as (t' & E).
    exists c, t'. split; [exact E|]. split; [exact Hc|apply rstrip_idem].
Qed.

Lemma trimmed_strip (x : string) : trimmed x -> Str.strip x = x.
Proof.
  intros (c & t & -> & Hc & Hr). unfold Str.strip. cbn [Str.lstrip].
  now rewrite Hc.
Qed.

Lemma strip_idem (s : string) : Str.strip (Str.strip s) = Str.strip s.
Proof.
  destruct (strip_trimmed s) as [->|H]; [reflexivity|now apply trimmed_strip].
Qed.

Lemma append_cons (c : ascii) (a b : string) :
  String c a +:+ b = String c (a +:+ b).
Proof. reflexivity. Qed.

Lemma rstrip_app (a b : string) :
  Str.rstrip b <> "" -> Str.rstrip (a +:+ b) = a +:+ Str.rstrip b.
Proof.
  intros Hb. induction a as [|c a IH]; [reflexivity|].
  rewrite !append_cons. cbn [Str.rstrip]. rewrite IH.
  destruct a as [|d a]; [|reflexivity].
  change ("" +:+ Str.rstrip b) with (Str.rstrip b).
  destruct (Str.rstrip b); [now contradiction Hb|reflexivity].
Qed.

Lemma trimmed_rstrip_nonempty (x : string) : trimmed x -> Str.rstrip x <> "".
Proof. intros (c & t & -> & _ & ->). discriminate. Qed.

(** the join of trimmed texts is trimmed *)
Lemma join_trimmed (sep : string) (l : list string) :
  l <> [] -> Forall trimmed l -> trimmed (Str.join sep l).
Proof.
  induction l as [|x l IH]; [easy|]. intros _ HF.
  inversion HF as [|? ? Hx Hl]; subst.
  destruct l as [|y l]; [exact Hx|].
  specialize (IH ltac:(discriminate) Hl).
  change (Str.join sep (x :: y :: l))
    with (x +:+ sep +:+ Str.join sep (y :: l)).
  destruct Hx as (c & t & -> & Hc & Hr).
  exists c, (t +:+ sep +:+ Str.join sep (y :: l)).
  split; [reflexivity|]. split; [exact Hc|].
  pose proof (trimmed_rstrip_nonempty _ IH) as Hne.
  destruct IH as (c' & t' & E & Hc' & Hr').
  assert (Hs : Str.rstrip (sep +:+ Str.join sep (y :: l))
               = sep +:+ Str.join sep (y :: l)).
  { rewrite rstrip_app by exact Hne. now rewrite Hr'. }
  rewrite rstrip_app; [now rewrite Hs|].
  rewrite Hs, E. destruct sep; discriminate.
Qed.

Lemma clean_blocks_trimmed (code_blocks : list string) :
  Forall trimmed (clean_blocks code_blocks).
Proof.
  induction code_blocks as [|b bs IH]; cbn [clean_blocks]; [constructor|].
  destruct (Str.truthy (Str.strip b) && _) eqn:E; [|exact IH].
  constructor; [|exact IH].
  apply andb_true_iff in E as [E _].
  destruct (strip_trimmed b) as [H|H]; [|exact H].
  rewrite H in E. discriminate.
Qed.

(** X10: a code answer has no white space at either end: trimming it
    again changes nothing, whether it is the joined snippets, the text
    after an [Expected Code Example] label, or empty. *)
Theorem code_answer_is_trimmed (question_content : string) :
  Str.strip (extract_code_answer question_content)
  = extract_code_answer question_content.
Proof.
  unfold extract_code_answer.
  destruct (negb (Str.truthy question_content)); [reflexivity|].
  destruct (negb (is_coding_question question_content)); [reflexivity|].
  cbv zeta.
  assert (Hex : Str.strip (code_example question_content)
                = code_example question_content).
  { unfold code_example. destruct (search _ _ _); [apply strip_idem|reflexivity]. }
  destruct (collect_code_blocks question_content) as [|b bs] eqn:Eb;
    [exact Hex|].
  pose proof (clean_blocks_trimmed (b :: bs)) as HF.
  destruct (clean_blocks (b :: bs)) as [|x xs] eqn:Ec; [exact Hex|].
  apply trimmed_strip, join_trimmed; [discriminate|exact HF].
Qed.

Import ReZ InterviewFile Workbook.

(** ** Column widths *)

(** the loop keeps the largest length of a truthy cell *)
Lemma max_length_loop_spec (column : list cell) :
  forall m,
    max_length_loop column m
    = Nat.max m (list_max (map cell_length (List.filter cell_truthy column))).
Proof.
  induction column as [|v column IH]; intros m; cbn [max_length_loop].
  - cbn. lia.
  - cbn [List.filter]. destruct (cell_truthy v); cbn [andb map].
    + change (list_max (cell_length v :: ?l))
        with (Nat.max (cell_length v) (list_max l)).
      destruct (m <? cell_length v) eqn:E; rewrite IH.
      * apply Nat.ltb_lt in E. lia.
      * apply Nat.ltb_ge in E. lia.
    + apply IH.
Qed.

(** X11: a width that [format_worksheet] sets is between 6 and 80, and it
    sets one exactly when some cell of the column has a truthy value with
    at least one character. *)
Theorem column_width_bounds (column : list cell) :
  (forall w, adjusted_width column = Some w -> 6 <= w <= 80)
  /\ (adjusted_width column = None
      <-> list_max (map cell_length (List.filter cell_truthy column)) = 0).
Proof.
  unfold adjusted_width. cbv zeta. rewrite max_length_loop_spec.
  cbn [Nat.max].
  set (L := list_max _).
  destruct (0 <? L) eqn:E0.
  - apply Nat.ltb_lt in E0. split; [|split; [discriminate|lia]].
    intros w [= <-].
    destruct (300 <? L); [lia|]. destruct (100 <? L); lia.
  - apply Nat.ltb_ge in E0. split; [discriminate|]. split; [lia|reflexivity].
Qed.

(** X12: a column whose longest value is longer gets a width that is at
    least as large. *)
Theorem column_width_monotone (column1 column2 : list cell) (w1 w2 : nat) :
  list_max (map cell_length (List.filter cell_truthy column1))
  <= list_max (map cell_length (List.filter cell_truthy column2)) ->
  adjusted_width column1 = Some w1 ->
  adjusted_width column2 = Some w2 ->
  w1 <= w2.
Proof.
  unfold adjusted_width. cbv zeta. rewrite !max_length_loop_spec.
  cbn [Nat.max]. set (L1 := list_max _). set (L2 := list_max _).
  intros HL.
  destruct (0 <? L1); [|discriminate]. destruct (0 <? L2); [|discriminate].
  intros [= <-] [= <-].
  destruct (300 <? L1) eqn:A1, (300 <? L2) eqn:A2,
           (100 <? L1) eqn:B1, (100 <? L2) eqn:B2;
    repeat match goal with
           | H : (_ <? _) = true |- _ => apply Nat.ltb_lt in H
           | H : (_ <? _) = false |- _ => apply Nat.ltb_ge in H
           end; lia.
Qed.

Lemma column_width_monotone_witness :
  adjusted_width [ Text "Part"; Text "Part 1: Basics" ] = Some 19
  /\ adjusted_width [ Text "Question Title"; Empty; Number 0;
                      Text "Question (5 minutes)" ] = Some 25
  /\ 19 <= 25.
Proof.
  split; [reflexivity|]. split; [reflexivity|].
  apply (column_width_monotone
           [ Text "Part"; Text "Part 1: Basics" ]
           [ Text "Question Title"; Empty; Number 0;
             Text "Question (5 minutes)" ]);
    [vm_compute; lia|reflexivity|reflexivity].
Defined.

(** ** The matcher: where a match can end *)

Lemma drop_nil (n : nat) : Str.drop n "" = "".
Proof. destruct n; reflexivity. Qed.

Lemma drop_drop (s : string) :
  forall n m, Str.drop m (Str.drop n s) = Str.drop (n + m) s.
Proof.
  induction s as [|c s IH]; intros n m.
  - now rewrite !drop_nil.
  - destruct n as [|n]; [reflexivity|]. cbn [Str.drop Nat.add]. apply IH.
Qed.

Lemma drop_length (s : string) :
  forall n, String.length (Str.drop n s) = String.length s - n.
Proof.
  induction s as [|c s IH]; intros [|n]; cbn [Str.drop String.length];
    try reflexivity.
  apply IH.
Qed.

Lemma get_drop (s : string) :
  forall n i, String.get (n + i) s = String.get i (Str.drop n s).
Proof.
  induction s as [|c s IH]; intros [|n] i; try reflexivity.
  cbn [Str.drop Nat.add String.get]. apply IH.
Qed.

Lemma drop_cons (s : string) :
  forall n c s', Str.drop n s = String c s' ->
    Str.drop (S n) s = s' /\ String.get n s = Some c /\ n < String.length s.
Proof.
  induction s as [|a s IH]; intros [|n] c s' H; cbn in H; try discriminate.
  - injection H as <- <-. cbn. repeat split. lia.
  - destruct (IH n c s' H) as (H1 & H2 & H3). cbn [Str.drop String.get].
    repeat split; [exact H1|exact H2|cbn; lia].
Qed.

Lemma reach_refl (st : mstate) : reach st st.
Proof. exists 0. rewrite Nat.add_0_r. repeat split. lia. Qed.

Lemma reach_trans (st1 st2 st3 : mstate) :
  reach st1 st2 -> reach st2 st3 -> reach st1 st3.
Proof.
  intros (n & Hp & Hr & Hn) (m & Hp' & Hr' & Hm). exists (n + m).
  rewrite Hp', Hp, Hr', Hr, drop_drop. rewrite Hr, drop_length in Hm.
  repeat split; lia.
Qed.

Section MatcherFacts.
Variable fl : flags.
Variable subject : string.

Lemma lit_drop (p : string) :
  forall s s', lit fl p s = Some s' ->
    s' = Str.drop (String.length p) s /\ String.length p <= String.length s.
Proof.
  induction p as [|a p IH]; intros s s' H; cbn in H.
  - injection H as <-. split; [reflexivity|cbn; lia].
  - destruct s as [|c s]; [discriminate|].
    destruct (char_eq fl a c); [|discriminate].
    destruct (IH s s' H) as [H1 H2]. split; [exact H1|cbn; lia].
Qed.

Lemma rep_greedy_inv {A} cs lo hi (k : nat -> string -> option A) x (s : string) :
  forall n p, rep_greedy fl cs lo hi k n p s = Some x ->
    exists j, j <= String.length s /\ k (p + j) (Str.drop j s) = Some x.
Proof.
  induction s as [|c s IH]; intros n p H; cbn [rep_greedy] in H.
  - destruct (lo <=? n); [|discriminate]. exists 0.
    rewrite Nat.add_0_r. split; [cbn; lia|exact H].
  - assert (Hstop : (if lo <=? n then k p (String c s) else None) = Some x ->
                    exists j, j <= String.length (String c s)
                              /\ k (p + j) (Str.drop j (String c s)) = Some x).
    { destruct (lo <=? n); [|discriminate]. intros Hk. exists 0.
      rewrite Nat.add_0_r. split; [cbn; lia|exact Hk]. }
    destruct (cset_match fl cs c && below hi n); [|now apply Hstop].
    destruct (rep_greedy fl cs lo hi k (S n) (S p) s) as [y|] eqn:E;
      cbn [or_else] in H; [|now apply Hstop].
    injection H as ->. destruct (IH _ _ E) as (j & Hj & Hk).
    exists (S j). rewrite <- plus_n_Sm. split; [cbn; lia|exact Hk].
Qed.

(** a lazy repetition ends at the first place, past its minimum, where
    the continuation succeeds *)
Lemma rep_lazy_inv {A} cs lo hi (k : nat -> string -> option A) x (s : string) :
  forall n p, rep_lazy fl cs lo hi k n p s = Some x ->
    exists j, j <= String.length s
              /\ k (p + j) (Str.drop j s) = Some x
              /\ forall i, i < j -> lo <= n + i ->
                           k (p + i) (Str.drop i s) = None.
Proof.
  induction s as [|c s IH]; intros n p H; cbn [rep_lazy] in H.
  - destruct (lo <=? n); [|discriminate].
    destruct (k p "") as [y|] eqn:E; cbn [or_else] in H; [|discriminate].
    injection H as ->. exists 0. rewrite Nat.add_0_r.
    split; [cbn; lia|]. split; [exact E|]. intros i Hi. lia.
  - assert (Hmore :
      (if cset_match fl cs c && below hi n
       then rep_lazy fl cs lo hi k (S n) (S p) s else None) = Some x ->
      (lo <= n -> k p (String c s) = None) ->
      exists j, j <= String.length (String c s)
                /\ k (p + j) (Str.drop j (String c s)) = Some x
                /\ forall i, i < j -> lo <= n + i ->
                     k (p + i) (Str.drop i (String c s)) = None).
    { destruct (cset_match fl cs c && below hi n); [|discriminate].
      intros Hr Hk0. destruct (IH _ _ Hr) as (j & Hj & Hk & Hmin).
      exists (S j). rewrite <- plus_n_Sm. split; [cbn; lia|].
      split; [exact Hk|]. intros [|i] Hi Hlo.
      - rewrite Nat.add_0_r in *. now apply Hk0.
      - rewrite <- plus_n_Sm. cbn [Str.drop]. apply Hmin; lia. }
    destruct (lo <=? n) eqn:Elo.
    + destruct (k p (String c s)) as [y|] eqn:E; cbn [or_else] in H.
      * injection H as ->. exists 0. rewrite Nat.add_0_r.
        split; [cbn; lia|]. split; [exact E|]. intros i Hi. lia.
      * apply Hmore; [exact H|reflexivity].
    + apply Hmore; [exact H|]. apply Nat.leb_gt in Elo. lia.
Qed.

(** the continuation of a successful match was called on a state that is
    further in the text *)
Lemma rmatch_inv (r : regex) :
  forall st k x, rmatch fl subject r st k = Some x ->
    exists st', reach st st' /\ k st' = Some x.
Proof.
  induction r as [p|cs|cs lo hi greedy|r1 IH1 r2 IH2|r1 IH1 r2 IH2
                 |i r1 IH1|r1 IH1| |]; intros st k x H; cbn [rmatch] in H.
  - destruct (lit fl p (rest st)) as [s'|] eqn:E; [|discriminate].
    apply lit_drop in E as [-> Hlen]. eexists. split; [|exact H].
    exists (String.length p). cbn. repeat split. exact Hlen.
  - destruct (rest st) as [|c s'] eqn:E; [discriminate|].
    destruct (cset_match fl cs c); [|discriminate].
    eexists. split; [|exact H]. exists 1. cbn [pos rest]. rewrite E.
    cbn. repeat split; lia.
  - assert (G : exists j, j <= String.length (rest st)
               /\ k (MState (pos st + j) (Str.drop j (rest st)) (caps st))
                  = Some x).
    { destruct greedy.
      - apply rep_greedy_inv in H as (j & Hj & Hk). now exists j.
      - apply rep_lazy_inv in H as (j & Hj & Hk & _). now exists j. }
    destruct G as (j & Hj & Hk). eexists. split; [|exact Hk].
    exists j. cbn. repeat split. exact Hj.
  - apply IH1 in H as (st1 & R1 & H). apply IH2 in H as (st2 & R2 & H).
    exists st2. split; [eapply reach_trans; eauto|exact H].
  - destruct (rmatch fl subject r1 st k) as [y|] eqn:E; cbn [or_else] in H.
    + injection H as ->. now apply IH1.
    + now apply IH2.
  - apply IH1 in H as (st1 & R1 & H). eexists. split; [|exact H].
    destruct R1 as (n & Hp & Hr & Hn). exists n. cbn. repeat split; assumption.
  - destruct (rmatch fl subject r1 st Some); [|discriminate].
    exists st. split; [apply reach_refl|exact H].
  - destruct (at_bol fl subject (pos st)); [|discriminate].
    exists st. split; [apply reach_refl|exact H].
  - destruct (at_eol fl (rest st)); [|discriminate].
    exists st. split; [apply reach_refl|exact H].
Qed.

(** every match of the scanner is a successful attempt at some place *)
Lemma zscan_In (r : zregex) m (s : string) :
  forall skip p, In m (zscan fl subject r skip p s) ->
    exists k b, zmatch_at fl subject r b (p + k) (Str.drop k s) = Some m.
Proof.
  assert (Here : forall p s, In m (zmatches_here fl subject r p s) ->
            exists b, zmatch_at fl subject r b p s = Some m).
  { intros p s0. unfold zmatches_here.
    destruct (zmatch_at fl subject r false p s0) as [m0|] eqn:E0; [|intros []].
    destruct (mend m0 =? p).
    - intros [<-|H]; [now exists false|].
      destruct (zmatch_at fl subject r true p s0) as [m1|] eqn:E1;
        [|destruct H].
      destruct H as [<-|[]]. now exists true.
    - intros [<-|[]]. now exists false. }
  induction s as [|c s IH]; intros skip p H; cbn [zscan] in H.
  - destruct skip; [|destruct H]. rewrite app_nil_r in H.
    apply Here in H as (b & H). exists 0, b. now rewrite Nat.add_0_r.
  - destruct skip as [|skip].
    + apply in_app_or in H as [H|H].
      * apply Here in H as (b & H). exists 0, b. now rewrite Nat.add_0_r.
      * apply IH in H as (k & b & H). exists (S k), b.
        now rewrite <- plus_n_Sm.
    + apply IH in H as (k & b & H). exists (S k), b.
      now rewrite <- plus_n_Sm.
Qed.

End MatcherFacts.

(** ** Alternatives *)

(** with no IGNORECASE a literal matches where the text starts with it *)
Lemma lit_startswith fl (p : string) :
  ignorecase fl = false ->
  forall s, Str.startswith p s = true <-> exists s', lit fl p s = Some s'.
Proof.
  intros Hfl. induction p as [|a p IH]; intros s; cbn [Str.startswith lit].
  - split; [intros _; now exists s|reflexivity].
  - destruct s as [|c s]; [split; [discriminate|intros (? & [=])]|].
    unfold char_eq. rewrite Hfl.
    destruct (Ascii.eqb a c); cbn [andb]; [apply IH|].
    split; [discriminate|intros (? & [=])].
Qed.

Lemma contains_drop (needle hay : string) :
  Str.contains needle hay = false ->
  forall k, Str.startswith needle (Str.drop k hay) = false.
Proof.
  induction hay as [|c hay IH]; intros H k; cbn [Str.contains] in H;
    apply orb_false_elim in H as [H0 H1].
  - now rewrite drop_nil.
  - destruct k as [|k]; [exact H0|]. cbn [Str.drop]. now apply IH.
Qed.

Lemma list_nil_no_member {A} (l : list A) : (forall x, ~ In x l) -> l = [].
Proof. destruct l as [|x l]; [reflexivity|]. intros H. destruct (H x). now left. Qed.

(** a section begins after the text [### Alternative] *)
Lemma alt_section_heading subject b p s m :
  zmatch_at (flag_or MULTILINE DOTALL) subject ALT_SECTION b p s = Some m ->
  Str.startswith "### Alternative" s = true.
Proof.
  unfold zmatch_at, ALT_SECTION. cbn [zmatch rmatch pos rest caps].
  destruct (lit _ "### Alternative" s) as [s'|] eqn:E; [|discriminate].
  intros _. apply (lit_startswith (flag_or MULTILINE DOTALL)); [reflexivity|].
  now exists s'.
Qed.

(** an alternative begins with the text [#### Alternative] *)
Lemma alt_question_heading subject b p s m :
  zmatch_at (flag_or MULTILINE DOTALL) subject ALT_QUESTION b p s = Some m ->
  Str.startswith "#### Alternative" s = true.
Proof.
  unfold zmatch_at, ALT_QUESTION. cbn [zmatch rmatch pos rest caps].
  destruct (lit _ "#### Alternative" s) as [s'|] eqn:E; [|discriminate].
  intros _. apply (lit_startswith (flag_or MULTILINE DOTALL)); [reflexivity|].
  now exists s'.
Qed.

(** X13: a document that nowhere has the text [### Alternative] has no
    alternative question. *)
Theorem no_alternative_heading_no_alternative (content : string) :
  Str.contains "### Alternative" content = false ->
  extract_alternatives content = [].
Proof.
  intros H. unfold extract_alternatives, alt_sections, zfindall.
  rewrite (list_nil_no_member (zfinditer ALT_SECTION _ content));
    [reflexivity|].
  intros m Hin. apply zscan_In in Hin as (k & b & Hm).
  apply alt_section_heading in Hm.
  now rewrite (contains_drop _ _ H k) in Hm.
Qed.

Lemma no_alternative_heading_no_alternative_witness :
  Str.contains "### Alternative" Samples.slice_doc = false
  /\ extract_alternatives Samples.slice_doc = [].
Proof.
  split; [reflexivity|].
  apply no_alternative_heading_no_alternative. reflexivity.
Defined.

Lemma midline_heading_spec (s : string) :
  forall b i,
    midline_heading b s = false ->
    Str.startswith "#### Alternative" (Str.drop i s) = true ->
    (i = 0 /\ b = true) \/ (exists i', i = S i' /\ String.get i' s = Some NL).
Proof.
  induction s as [|c s IH]; intros b i H Hs.
  - rewrite drop_nil in Hs. discriminate.
  - cbn [midline_heading] in H. apply orb_false_elim in H as [H0 H1].
    destruct i as [|i].
    + left. split; [reflexivity|]. cbn [Str.drop] in Hs. rewrite Hs in H0.
      destruct b; [reflexivity|discriminate].
    + right. exists i. split; [reflexivity|]. cbn [Str.drop] in Hs.
      destruct (IH _ _ H1 Hs) as [[-> Hc]|(i' & -> & Hg)].
      * apply Ascii.eqb_eq in Hc. now subst c.
      * exact Hg.
Qed.

Lemma rmatch_seq_inv fl subject r1 r2 st k x :
  rmatch fl subject (Seq r1 r2) st k = Some x ->
  exists st1, reach st st1 /\ rmatch fl subject r2 st1 k = Some x.
Proof. cbn [rmatch]. apply rmatch_inv. Qed.

Lemma substring_drop (s : string) :
  forall a j, String.substring a j s = String.substring 0 j (Str.drop a s).
Proof.
  induction s as [|c s IH]; intros [|a] j; try reflexivity.
  - now destruct j.
  - cbn [String.substring Str.drop]. apply IH.
Qed.

Lemma startswith_substring (x : string) :
  forall s j, Str.startswith x (String.substring 0 j s) = true ->
              Str.startswith x s = true.
Proof.
  induction x as [|a x IH]; intros s j H; [reflexivity|].
  destruct s as [|c s]; [now destruct j|].
  destruct j as [|j]; [discriminate|].
  cbn [String.substring Str.startswith] in *.
  apply andb_true_iff in H as [H1 H2]. rewrite H1. cbn [andb].
  now apply (IH s j).
Qed.

(** a text found in the first [j] characters of [s], from place [p] on,
    is there in [s], and [p] is before [j] *)
Lemma startswith_in_substring (a : ascii) (x : string) (s : string) :
  forall j p,
    Str.startswith (String a x) (Str.drop p (String.substring 0 j s)) = true ->
    Str.startswith (String a x) (Str.drop p s) = true /\ p < j.
Proof.
  induction s as [|c s IH]; intros j p H.
  - assert (E : String.substring 0 j "" = "") by now destruct j.
    rewrite E, drop_nil in H. discriminate.
  - destruct j as [|j]; [cbn in H; rewrite drop_nil in H; discriminate|].
    cbn [String.substring] in H. destruct p as [|p].
    + cbn [Str.drop] in *. split; [|lia].
      cbn [Str.startswith] in *. apply andb_true_iff in H as [H1 H2].
      rewrite H1. cbn [andb]. now apply (startswith_substring x s j).
    + cbn [Str.drop] in *. destruct (IH j p H) as [H1 H2]. split; [exact H1|lia].
Qed.

Lemma heading_two_hashes (s : string) :
  Str.startswith "#### Alternative" s = true -> Str.startswith "##" s = true.
Proof.
  destruct s as [|c1 [|c2 s]]; try discriminate.
  - cbn. now rewrite andb_false_r.
  - cbn [Str.startswith]. intros H.
    apply andb_true_iff in H as [H1 H]. apply andb_true_iff in H as [H2 _].
    now rewrite H1, H2.
Qed.

(** what a match of the section pattern captures: the text from a place
    [a] after a newline, of a length [j]; and in the text captured, no
    place that starts a line of the document has two hashes *)
Lemma alt_section_inv (content : string) b q m :
  zmatch_at (flag_or MULTILINE DOTALL) content ALT_SECTION b q
    (Str.drop q content) = Some m ->
  exists a j,
    group content 1 m = String.substring a j content
    /\ 0 < a
    /\ forall i, i < j ->
         Str.startswith "##" (Str.drop (a + i) content) = true ->
         at_bol (flag_or MULTILINE DOTALL) content (a + i) = false.
Proof.
  unfold zmatch_at.
  destruct (zmatch _ _ _ _ _) as [x|] eqn:E; [|discriminate].
  intros [= <-]. unfold ALT_SECTION in E. cbn [zmatch] in E.
  apply rmatch_seq_inv in E as (st1 & R1 & E).
  apply rmatch_seq_inv in E as (st2 & R2 & E).
  apply rmatch_seq_inv in E as (st3 & R3 & E).
  apply rmatch_seq_inv in E as (st4 & R4 & E).
  assert (R : reach (MState q (Str.drop q content) []) st4)
    by (repeat (eapply reach_trans; [eassumption|]); apply reach_refl).
  clear R1 R2 R3 R4 st1 st2 st3.
  destruct R as (n & Hp & Hr & _). cbn [pos rest] in Hp, Hr.
  rewrite drop_drop in Hr.
  cbn [rmatch] in E. destruct (rest st4) as [|c s'] eqn:Er; [discriminate|].
  destruct (cset_match _ (Chr NL) c); [|discriminate].
  rewrite <- Hp in Hr. symmetry in Hr.
  apply drop_cons in Hr as (Hs' & _ & _).
  unfold star_lazy in E. cbn [rmatch pos rest caps] in E.
  apply rep_lazy_inv in E as (j & Hj & Hk & Hmin).
  set (a := S (pos st4)) in *.
  assert (Hpos : forall i, (b && (a + i =? q)) = false).
  { intros i. destruct b; [|reflexivity]. cbn [andb].
    apply Nat.eqb_neq. unfold a. lia. }
  exists a, j. split; [|split; [unfold a; lia|]].
  - cbn [zmatch pos rest caps] in Hk.
    destruct (or_else _ _) in Hk; [|discriminate].
    rewrite Hpos in Hk. injection Hk as <-.
    unfold group, mend. cbn [mend_state caps pos List.find fst Nat.eqb].
    unfold Str.slice.
    match goal with
    | |- String.substring _ ?x _ = _ => replace x with j by (unfold a; lia)
    end.
    reflexivity.
  - intros i Hi Hs. specialize (Hmin i Hi ltac:(lia)).
    cbn [zmatch rmatch pos rest caps] in Hmin. rewrite Hpos in Hmin.
    destruct (at_bol _ content (a + i)); [|reflexivity]. exfalso.
    rewrite <- drop_drop, Hs' in Hs.
    apply (lit_startswith (flag_or MULTILINE DOTALL)) in Hs as (s'' & Hl);
      [|reflexivity].
    rewrite Hl in Hmin. cbn [or_else] in Hmin. discriminate.
Qed.

Lemma flat_map_nil {A B} (f : A -> list B) (l : list A) :
  (forall x, In x l -> f x = []) -> flat_map f l = [].
Proof.
  induction l as [|x l IH]; intros H; [reflexivity|]. cbn [flat_map].
  rewrite (H x) by now left. apply IH. intros y Hy. apply H. now right.
Qed.

(** X14: when every [#### Alternative] of a document begins its line, as
    a markdown heading does, [extract_alternatives] finds no alternative:
    a section ends at the first line that starts with two hashes, and the
    heading of its first alternative is such a line. *)
Theorem line_start_alternatives_are_lost (content : string) :
  midline_heading true content = false ->
  extract_alternatives content = [].
Proof.
  intros H. unfold extract_alternatives. apply flat_map_nil.
  intros section Hsec. unfold alt_sections, zfindall in Hsec.
  apply in_map_iff in Hsec as (m & <- & Hm).
  apply zscan_In in Hm as (q & b & Hm). cbn [Nat.add] in Hm.
  apply alt_section_inv in Hm as (a & j & -> & Ha & Hmin).
  unfold alt_questions, zfindall.
  rewrite (list_nil_no_member (zfinditer ALT_QUESTION _ _)); [reflexivity|].
  intros m2 Hm2. apply zscan_In in Hm2 as (p & b2 & Hm2).
  apply alt_question_heading in Hm2.
  rewrite substring_drop in Hm2.
  apply startswith_in_substring in Hm2 as [Hs Hp].
  rewrite drop_drop in Hs.
  pose proof (Hmin p Hp (heading_two_hashes _ Hs)) as Hbol.
  destruct (midline_heading_spec content true (a + p) H Hs)
    as [[E _]|(i' & E & Hg)]; [lia|].
  rewrite E in Hbol. cbn [at_bol multiline flag_or MULTILINE DOTALL orb andb]
    in Hbol.
  rewrite Hg in Hbol. now rewrite Ascii.eqb_refl in Hbol.
Qed.

Lemma line_start_alternatives_are_lost_witness :
  midline_heading true MoreSamples.junior_interview = false
  /\ extract_alternatives MoreSamples.junior_interview = [].
Proof.
  split; [reflexivity|].
  apply line_start_alternatives_are_lost. reflexivity.
Defined.

(** the same heading in the middle of a line is found *)
Example midline_alternative_is_found :
  midline_heading true MoreSamples.midline_interview = true
  /\ extract_alternatives MoreSamples.midline_interview
     = [ {[ "question_text" := "What is a map?";
            "expected_answer" := "Keys and values." ]} ].
Proof. split; vm_compute; reflexivity. Qed.

(** ** The export *)

Lemma extract_questions_keys fs content :
  exists qs,
    extract_questions fs content = Ok qs
    /\ Forall (fun q : QuestionRecord =>
                 forall key : string,
                   is_Some (q !! key) <-> In key record_keys) qs.
Proof.
  destruct (parts_loop_Forall
              (fun _ q => forall key : string,
                          is_Some (q !! key) <-> In key record_keys)
              fs content (question_record_keys fs)
              (finditer PART_HEADING MULTILINE content) 0)
    as (qs & Hqs & HF).
  exists qs. split; [exact Hqs|].
  eapply Forall_impl; [exact HF|]. now intros q (m & _ & Hq).
Qed.

Lemma rows_of_ok {A} (f : A -> exc row) (P : A -> Prop) (l : list A) :
  (forall x, P x -> exists r, f x = Ok r) -> Forall P l ->
  exists rs, rows_of f l = Ok rs /\ length rs = length l.
Proof.
  intros Hf HF. induction HF as [|x l Hx _ (rs & Hrs & Hlen)].
  - exists []. split; reflexivity.
  - destruct (Hf x Hx) as (r & Hr). exists (r :: rs). cbn [rows_of].
    rewrite Hr, Hrs. split; [reflexivity|cbn; now rewrite Hlen].
Qed.

(** a record with the eight keys gives a row: no [KeyError] *)
Lemma question_row_ok (q : QuestionRecord) :
  (forall key : string, is_Some (q !! key) <-> In key record_keys) ->
  exists r, question_row q = Ok r.
Proof.
  intros H.
  assert (G : forall key, In key record_keys -> exists v, q !! key = Some v).
  { intros key Hin. apply H in Hin as [v Hv]. now exists v. }
  unfold question_row, getitem.
  destruct (G "part") as (v1 & ->); [cbn; tauto|].
  destruct (G "question_title") as (v2 & ->); [cbn; tauto|].
  destruct (G "question_text") as (v3 & ->); [cbn; tauto|].
  destruct (G "expected_answer") as (v4 & ->); [cbn; tauto|].
  destruct (G "code_answer") as (v5 & ->); [cbn; tauto|].
  destruct (G "followup") as (v6 & ->); [cbn; tauto|].
  destruct (G "reference_link") as (v7 & ->); [cbn; tauto|].
  destruct (G "reference_content") as (v8 & ->); [cbn; tauto|].
  eexists. reflexivity.
Qed.

Lemma alternative_row_ok (alt_content : string) :
  exists r, alternative_row (alternative_record alt_content) = Ok r.
Proof.
  unfold alternative_row, alternative_record, getitem. cbv zeta.
  rewrite lookup_insert_eq. cbn [mbind exc_bind].
  rewrite lookup_insert_ne by discriminate. rewrite lookup_singleton_eq.
  eexists. reflexivity.
Qed.

Lemma extract_alternatives_records (content : string) :
  Forall (fun alt => exists alt_content, alt = alternative_record alt_content)
         (extract_alternatives content).
Proof.
  apply List.Forall_forall. intros alt H. unfold extract_alternatives in H.
  apply in_flat_map in H as (section & _ & H).
  apply in_map_iff in H as (alt_content & <- & _). now exists alt_content.
Qed.

(** a file that reads gives an interview, whatever it holds *)
Lemma parse_markdown_file_readable fs file_path stem0 content :
  fs file_path = Readable content ->
  exists qs,
    extract_questions fs content = Ok qs
    /\ Forall (fun q : QuestionRecord =>
                 forall key : string,
                   is_Some (q !! key) <-> In key record_keys) qs
    /\ parse_markdown_file fs file_path stem0 =
       Ok {| title := group1_or content (search TITLE MULTILINE content) stem0;
             duration :=
               group1_or content
                 (search (LABELLED "Duration") NOFLAG content) "N/A";
             format :=
               group1_or content
                 (search (LABELLED "Format") NOFLAG content) "N/A";
             target_level :=
               group1_or content
                 (search (LABELLED "Target Level") NOFLAG content) "N/A";
             questions := qs;
             alternatives := extract_alternatives content |}.
Proof.
  intros Hfs. destruct (extract_questions_keys fs content) as (qs & Hqs & HF).
  exists qs. split; [exact Hqs|]. split; [exact HF|].
  unfold parse_markdown_file, read_file. rewrite Hfs. cbn [mbind exc_bind].
  cbv zeta. rewrite Hqs. reflexivity.
Qed.

Section ExportFacts.
Variable path_of : string -> string.
Variable fs : filesystem.

(** one level, when its file is not one that cannot be read *)
Lemma process_level_ok (st : writer_state) (level filename : string) :
  (forall e, fs (path_of filename) <> Unreadable e) ->
  exists st',
    process_level path_of fs st level filename = Ok st'
    /\ (path_exists fs (path_of filename) = false ->
        df_summary st' = df_summary st /\ sheets st' = sheets st)
    /\ (path_exists fs (path_of filename) = true ->
        exists r,
          row_get "Level" r = Some (Text level)
          /\ df_summary st' =
             Some ((if String.eqb level "Junior" then []
                    else default [] (df_summary st)) ++ [r])%list).
Proof.
  intros Hfs. unfold process_level. cbv zeta.
  destruct (fs (path_of filename)) as [|content|e] eqn:E;
    [| |now contradiction (Hfs e)].
  - unfold path_exists. rewrite E. cbn [negb]. eexists. split; [reflexivity|].
    split; [now intros _|discriminate].
  - destruct (parse_markdown_file_readable fs _ (stem filename) _ E)
      as (qs & _ & HF & ->).
    unfold path_exists. rewrite E. cbn [negb mbind exc_bind questions].
    destruct (rows_of_ok question_row _ qs question_row_ok HF)
      as (qrows & -> & _).
    cbn [mbind exc_bind alternatives].
    destruct (rows_of_ok alternative_row _ (extract_alternatives content)
                (fun alt '(ex_intro _ c Hc) =>
                   eq_ind_r (fun a => exists r, alternative_row a = Ok r)
                            (alternative_row_ok c) Hc)
                (extract_alternatives_records content))
      as (arows & Ha & _).
    destruct (extract_alternatives content) as [|alt alts] eqn:Ealt.
    + cbn [mbind exc_bind]. eexists. split; [reflexivity|].
      split; [discriminate|]. intros _. cbn [df_summary].
      match goal with
      | |- context [summary_row ?l ?iv] => exists (summary_row l iv)
      end.
      split; [reflexivity|].
      destruct (String.eqb level "Junior"); [reflexivity|].
      now destruct (df_summary st).
    + rewrite Ha. cbn [mbind exc_bind]. eexists. split; [reflexivity|].
      split; [discriminate|]. intros _. cbn [df_summary].
      match goal with
      | |- context [summary_row ?l ?iv] => exists (summary_row l iv)
      end.
      split; [reflexivity|].
      destruct (String.eqb level "Junior"); [reflexivity|].
      now destruct (df_summary st).
Qed.

Lemma found_levels_cons (level filename : string) files :
  found_levels path_of fs ((level, filename) :: files) =
    if path_exists fs (path_of filename)
    then level :: found_levels path_of fs files
    else found_levels path_of fs files.
Proof.
  unfold found_levels. cbn [List.filter snd].
  now destruct (path_exists fs (path_of filename)).
Qed.

(** the levels after the first: none of them is [Junior], so each one
    found adds its row to the summary *)
Lemma levels_loop_summary (files : list (string * string)) :
  (forall level filename, In (level, filename) files ->
     level <> "Junior" /\ forall e, fs (path_of filename) <> Unreadable e) ->
  forall st,
    exists st',
      levels_loop path_of fs st files = Ok st'
      /\ summary_levels (df_summary st') =
         (summary_levels (df_summary st)
          ++ map (fun l => Some (Text l)) (found_levels path_of fs files))%list
      /\ (df_summary st' = None <->
          df_summary st = None /\ found_levels path_of fs files = [])
      /\ (found_levels path_of fs files = [] -> sheets st' = sheets st).
Proof.
  induction files as [|[level filename] files IH]; intros Hfiles st.
  - exists st. split; [reflexivity|]. cbn. rewrite app_nil_r.
    split; [reflexivity|]. split; [tauto|reflexivity].
  - destruct (Hfiles level filename (or_introl eq_refl)) as [Hj Hfs].
    destruct (process_level_ok st level filename Hfs)
      as (st1 & H1 & Hmiss & Hthere).
    destruct (IH (fun l f H => Hfiles l f (or_intror H)) st1)
      as (st' & H' & Hsum & Hnone & Hsheets).
    exists st'. cbn [levels_loop]. rewrite H1. cbn [mbind exc_bind].
    split; [exact H'|]. rewrite found_levels_cons.
    destruct (path_exists fs (path_of filename)).
    + destruct (Hthere eq_refl) as (r & Hr & Hd).
      apply String.eqb_neq in Hj. rewrite Hj in Hd.
      rewrite Hsum, Hd. cbn [map]. split; [|split].
      * unfold summary_levels. rewrite map_app. cbn [map]. rewrite Hr.
        destruct (df_summary st); cbn [default map];
          now rewrite <- app_assoc.
      * rewrite Hnone, Hd. split; [intros [[=] _]|intros [_ [=]]].
      * discriminate.
    + destruct (Hmiss eq_refl) as [Hd Hs]. rewrite Hsum, Hnone, Hd.
      split; [reflexivity|]. split; [tauto|].
      intros Hf. rewrite (Hsheets Hf). exact Hs.
Qed.

(** X15: when no level file is one that cannot be read, the export
    returns. With no level file at all it writes no sheet, not even the
    summary; otherwise the last sheet is the summary, with one row for
    each level whose file exists, in the order Junior, Intermediate,
    Senior. *)
Theorem summary_one_row_per_level (output_file : string) :
  (forall level filename, In (level, filename) interview_files ->
     forall e, fs (path_of filename) <> Unreadable e) ->
  exists st,
    export_to_excel path_of fs output_file = Ok st
    /\ match found_levels path_of fs interview_files with
       | [] => sheets st = []
       | levels =>
           exists before rows,
             sheets st = (before ++ [ ("Summary", rows) ])%list
             /\ map (row_get "Level") rows
                = map (fun l => Some (Text l)) levels
       end.
Proof.
  intros Hfs. unfold export_to_excel, interview_files in *.
  cbn [levels_loop].
  set (st0 := {| sheets := []; df_summary := None; log := [] |}).
  destruct (process_level_ok st0 "Junior" "junior-go-developer.md")
    as (st1 & H1 & Hmiss & Hthere).
  { apply (Hfs "Junior"). now left. }
  rewrite H1. cbn [mbind exc_bind].
  destruct (levels_loop_summary
              [ ("Intermediate", "intermediate-go-developer.md");
                ("Senior", "senior-go-developer.md") ]) with (st := st1)
    as (st' & H' & Hsum & Hnone & Hsheets).
  { intros level filename [[= <- <-]|[[= <- <-]|[]]];
      (split; [discriminate|]); intros e; eapply Hfs;
      first [ now (right; left) | now (right; right; left) ]. }
  cbn [levels_loop] in H'. rewrite H'. cbn [mbind exc_bind].
  eexists. split; [reflexivity|]. cbn [sheets].
  rewrite found_levels_cons.
  set (later := found_levels path_of fs _) in *.
  destruct (path_exists fs (path_of "junior-go-developer.md")).
  - destruct (Hthere eq_refl) as (r & Hr & Hd).
    assert (Hd' : df_summary st1 = Some [r]) by exact Hd.
    rewrite Hd' in Hsum. cbn [summary_levels map app] in Hsum.
    rewrite Hr in Hsum.
    destruct (df_summary st') as [rows|] eqn:Ed.
    + exists (sheets st'), rows. split; [reflexivity|exact Hsum].
    + destruct (proj1 Hnone eq_refl) as [Ed' _]. rewrite Hd' in Ed'.
      discriminate.
  - destruct (Hmiss eq_refl) as [Hd Hs]. rewrite Hd in Hsum, Hnone.
    cbn [summary_levels df_summary st0 app] in Hsum.
    cbn [df_summary st0] in Hnone.
    destruct (df_summary st') as [rows|] eqn:Ed.
    + cbn [summary_levels] in Hsum.
      destruct later as [|l ls] eqn:El.
      * assert (Some rows = None) by (apply Hnone; split; reflexivity).
        discriminate.
      * exists (sheets st'), rows. split; [reflexivity|exact Hsum].
    + destruct (proj1 Hnone eq_refl) as [_ Ef]. rewrite Ef.
      rewrite (Hsheets Ef). exact Hs.
Qed.

End ExportFacts.

Lemma summary_one_row_per_level_witness :
  exists st before rows,
    export_to_excel MoreSamples.in_interviews MoreSamples.junior_only
      "interview_questions.xlsx" = Ok st
    /\ sheets st = (before ++ [ ("Summary", rows) ])%list
    /\ map (row_get "Level") rows = [ Some (Text "Junior") ].
Proof.
  destruct (summary_one_row_per_level MoreSamples.in_interviews
              MoreSamples.junior_only "interview_questions.xlsx")
    as (st & Hst & Hm).
  { intros level filename _ e. unfold MoreSamples.junior_only.
    destruct (String.eqb _ _); discriminate. }
  change (found_levels MoreSamples.in_interviews MoreSamples.junior_only
            interview_files) with [ "Junior" ] in Hm.
  destruct Hm as (before & rows & Hs & Hl).
  exists st, before, rows. split; [exact Hst|]. split; [exact Hs|exact Hl].
Defined.

Lemma process_level_unreadable path_of fs st level filename e :
  fs (path_of filename) = Unreadable e ->
  process_level path_of fs st level filename = Raise e.
Proof.
  intros H. unfold process_level, path_exists, parse_markdown_file, read_file.
  cbv zeta. rewrite H. reflexivity.
Qed.

Lemma levels_loop_unreadable path_of fs level filename e files :
  In (level, filename) files ->
  fs (path_of filename) = Unreadable e ->
  forall st, exists e', levels_loop path_of fs st files = Raise e'.
Proof.
  intros Hin Hfs. induction files as [|[l f] files IH]; [destruct Hin|].
  intros st. cbn [levels_loop]. destruct Hin as [[= -> ->]|Hin].
  - rewrite (process_level_unreadable _ _ _ _ _ _ Hfs). now exists e.
  - destruct (process_level path_of fs st l f) as [st1|e1].
    + apply (IH Hin).
    + now exists e1.
Qed.

(** X16: a level file that exists and cannot be read makes the whole
    export raise: the error of reading is not caught, and nothing is
    returned for the levels that were read before. *)
Theorem export_raises_on_unreadable_level (path_of : string -> string)
    (fs : filesystem) (output_file level filename e : string) :
  In (level, filename) interview_files ->
  fs (path_of filename) = Unreadable e ->
  exists e', export_to_excel path_of fs output_file = Raise e'.
Proof.
  intros Hin Hfs. unfold export_to_excel.
  destruct (levels_loop_unreadable path_of fs level filename e
              interview_files Hin Hfs
              {| sheets := []; df_summary := None; log := [] |})
    as (e' & ->).
  now exists e'.
Qed.

Lemma export_raises_on_unreadable_level_witness :
  export_to_excel MoreSamples.in_interviews MoreSamples.senior_locked
    "interview_questions.xlsx" = Raise "[Errno 13] Permission denied".
Proof.
  destruct (export_raises_on_unreadable_level MoreSamples.in_interviews
              MoreSamples.senior_locked "interview_questions.xlsx"
              "Senior" "senior-go-developer.md"
              "[Errno 13] Permission denied") as (e' & H).
  - right. right. now left.
  - reflexivity.
  - rewrite H. vm_compute in H. symmetry. exact H.
Defined.

(** ** The header of an interview file *)

(** a greedy run: [j] characters of the class, at least the minimum *)
Lemma rep_greedy_run {A} fl cs lo hi (k : nat -> string -> option A) x
    (s : string) :
  forall n p, rep_greedy fl cs lo hi k n p s = Some x ->
    exists j, j <= String.length s /\ lo <= n + j
              /\ (forall t c, t < j -> String.get t s = Some c ->
                              cset_match fl cs c = true)
              /\ k (p + j) (Str.drop j s) = Some x.
Proof.
  induction s as [|c s IH]; intros n p H; cbn [rep_greedy] in H.
  - destruct (lo <=? n) eqn:E; [|discriminate]. apply Nat.leb_le in E.
    exists 0. rewrite !Nat.add_0_r. split; [cbn; lia|]. split; [exact E|].
    split; [intros t c' Ht; lia|exact H].
  - assert (Hstop : (if lo <=? n then k p (String c s) else None) = Some x ->
      exists j, j <= String.length (String c s) /\ lo <= n + j
                /\ (forall t c', t < j -> String.get t (String c s) = Some c' ->
                                 cset_match fl cs c' = true)
                /\ k (p + j) (Str.drop j (String c s)) = Some x).
    { destruct (lo <=? n) eqn:E; [|discriminate]. apply Nat.leb_le in E.
      intros Hk. exists 0. rewrite !Nat.add_0_r. split; [cbn; lia|].
      split; [exact E|]. split; [intros t c' Ht; lia|exact Hk]. }
    destruct (cset_match fl cs c) eqn:Ec; cbn [andb] in H; [|now apply Hstop].
    destruct (below hi n); [|now apply Hstop].
    destruct (rep_greedy fl cs lo hi k (S n) (S p) s) as [y|] eqn:E;
      cbn [or_else] in H; [|now apply Hstop].
    injection H as ->. destruct (IH _ _ E) as (j & Hj & Hlo & Hc & Hk).
    exists (S j). rewrite <- !plus_n_Sm. split; [cbn; lia|].
    split; [lia|]. split; [|exact Hk].
    intros [|t] c' Ht Hg; cbn [String.get] in Hg.
    + now injection Hg as <-.
    + apply (Hc t c'); [lia|exact Hg].
Qed.

Lemma get_substring (s : string) :
  forall j t c, String.get t (String.substring 0 j s) = Some c ->
                t < j /\ String.get t s = Some c.
Proof.
  induction s as [|a s IH]; intros [|j] t c H; try discriminate.
  cbn [String.substring] in H. destruct t as [|t]; cbn [String.get] in *.
  - split; [lia|exact H].
  - destruct (IH j t c H) as [H1 H2]. split; [lia|exact H2].
Qed.

Lemma split_no_separator (sep : ascii) (g : string) :
  (forall t c, String.get t g = Some c -> c <> sep) -> Str.split sep g = [g].
Proof.
  induction g as [|a g IH]; intros H; [reflexivity|]. cbn [Str.split].
  destruct (Ascii.eqb_spec a sep) as [->|_].
  - now contradiction (H 0 sep eq_refl).
  - rewrite IH; [reflexivity|]. intros t c Hg. now apply (H (S t) c).
Qed.

(** what the group [(.+)] captures when [.] stands for no newline *)
Lemma group_run_one_line fl content p0 st2 x (k : mstate -> option mstate) :
  dotall fl = false ->
  reach (MState p0 (Str.drop p0 content) []) st2 ->
  (forall st, k st = Some x -> x = st) ->
  rmatch fl content (Grp 1 (plus Any)) st2 k = Some x ->
  one_line (group content 1 (MRes p0 x)).
Proof.
  intros Hfl (n & Hp & Hr & _) Hk H. cbn [pos rest] in Hp, Hr.
  rewrite drop_drop, <- Hp in Hr.
  unfold plus in H. cbn [rmatch] in H.
  apply rep_greedy_run in H as (j & Hj & Hlo & Hc & H).
  apply Hk in H. subst x.
  unfold group, mend. cbn [mend_state caps pos List.find fst Nat.eqb].
  unfold Str.slice. replace (pos st2 + j - pos st2) with j by lia.
  rewrite substring_drop, <- Hr.
  assert (Hnl : forall t c,
            String.get t (String.substring 0 j (rest st2)) = Some c ->
            c <> NL).
  { intros t c Hg. apply get_substring in Hg as [Ht Hg].
    specialize (Hc t c Ht Hg). cbn [cset_match] in Hc. rewrite Hfl in Hc.
    cbn [orb] in Hc. intros ->. now rewrite Ascii.eqb_refl in Hc. }
  split; [|now apply split_no_separator].
  destruct (rest st2) as [|c s]; [cbn in Hj; lia|].
  destruct j as [|j]; [lia|]. discriminate.
Qed.

Lemma labelled_one_line (label content : string) m :
  search (LABELLED label) NOFLAG content = Some m ->
  one_line (group content 1 m).
Proof.
  intros H. apply search_from_at in H as (p & _ & H). cbn [Nat.add] in H.
  unfold match_at in H.
  destruct (rmatch _ _ _ _ _) as [x|] eqn:E; [|discriminate].
  injection H as <-. unfold LABELLED in E.
  apply rmatch_seq_inv in E as (st1 & R1 & E).
  apply rmatch_seq_inv in E as (st2 & R2 & E).
  apply (group_run_one_line NOFLAG content p st2 x _ eq_refl
           (reach_trans _ _ _ R1 R2)) in E; [exact E|].
  intros st. cbn [andb]. now intros [= <-].
Qed.

Lemma title_one_line (content : string) m :
  search TITLE MULTILINE content = Some m -> one_line (group content 1 m).
Proof.
  intros H. apply search_from_at in H as (p & _ & H). cbn [Nat.add] in H.
  unfold match_at in H.
  destruct (rmatch _ _ _ _ _) as [x|] eqn:E; [|discriminate].
  injection H as <-. unfold TITLE in E.
  apply rmatch_seq_inv in E as (st1 & R1 & E).
  apply rmatch_seq_inv in E as (st2 & R2 & E).
  change (rmatch MULTILINE content (Grp 1 (plus Any) >> Eol) st2
            (fun st => if false && (pos st =? p) then None else Some st))
    with (rmatch MULTILINE content (Grp 1 (plus Any)) st2
            (fun st' => rmatch MULTILINE content Eol st'
               (fun st => if false && (pos st =? p) then None else Some st)))
    in E.
  apply (group_run_one_line MULTILINE content p st2 x _ eq_refl
           (reach_trans _ _ _ R1 R2)) in E; [exact E|].
  intros st. cbn [rmatch andb]. destruct (at_eol _ _); [|discriminate].
  now intros [= <-].
Qed.

(** X17: in an interview that [parse_markdown_file] returns, the duration,
    the format and the target level are each one line of text, not empty
    and with no newline in it (the placeholder when the label is not
    there), and so is the title unless it is the stem of the file name. *)
Theorem interview_header_one_line (fs : filesystem)
    (file_path stem0 : string) (interview : Interview) :
  parse_markdown_file fs file_path stem0 = Ok interview ->
  one_line (duration interview)
  /\ one_line (format interview)
  /\ one_line (target_level interview)
  /\ (title interview = stem0 \/ one_line (title interview)).
Proof.
  intros H. destruct (fs file_path) as [|content|e] eqn:Efs;
    try (unfold parse_markdown_file, read_file in H; rewrite Efs in H;
         discriminate).
  destruct (parse_markdown_file_readable fs file_path stem0 content Efs)
    as (qs & _ & _ & Hp).
  rewrite Hp in H. injection H as <-. cbn [duration format target_level title].
  assert (L : forall label,
            one_line (group1_or content
                        (search (LABELLED label) NOFLAG content) "N/A")).
  { intros label.
    destruct (search (LABELLED label) NOFLAG content) as [m|] eqn:E.
    - now apply (labelled_one_line label).
    - split; [discriminate|reflexivity]. }
  split; [apply L|]. split; [apply L|]. split; [apply L|].
  destruct (search TITLE MULTILINE content) as [m|] eqn:E.
  - right. now apply title_one_line.
  - now left.
Qed.

Lemma interview_header_one_line_witness :
  exists interview,
    parse_markdown_file MoreSamples.junior_only
      "interviews/junior-go-developer.md" "junior-go-developer" = Ok interview
    /\ title interview = "Junior Go Developer Interview"
    /\ duration interview = "45 minutes"
    /\ one_line (duration interview)
    /\ one_line (format interview).
Proof.
  destruct (parse_markdown_file_readable MoreSamples.junior_only
              "interviews/junior-go-developer.md" "junior-go-developer"
              MoreSamples.junior_interview eq_refl) as (qs & _ & _ & Hp).
  eexists. split; [exact Hp|].
  destruct (interview_header_one_line _ _ _ _ Hp) as (Hd & Hf & _ & _).
  split; [vm_compute; reflexivity|]. split; [vm_compute; reflexivity|].
  split; [exact Hd|exact Hf].
Defined.

(** ** Records and rows *)

Lemma question_record_trimmed fs part title body :
  exists q,
    question_record fs part title body = Ok q
    /\ forall key v,
         In key [ "expected_answer"; "followup"; "reference_link" ] ->
         q !! key = Some v -> Str.strip v = v.
Proof.
  destruct (question_record_eq fs part title body) as (rc & _ & Hq).
  eexists. split; [exact Hq|]. intros key v Hin Hv. cbn [In] in Hin.
  destruct Hin as [<-|[<-|[<-|[]]]]; simplify_map_eq.
  - unfold extract_expected_answer.
    destruct (expected_match body); [apply strip_idem|reflexivity].
  - unfold extract_followup.
    destruct (search FOLLOWUP DOTALL body); [apply strip_idem|reflexivity].
  - unfold extract_reference_text.
    destruct (search REFERENCE DOTALL body); [apply strip_idem|reflexivity].
Qed.

(** X18: in every record of a document the expected answer, the
    follow-up and the reference citation have no white space at either
    end. *)
Theorem labelled_fields_are_trimmed (fs : filesystem) (content : string) :
  exists qs,
    extract_questions fs content = Ok qs
    /\ Forall (fun q : QuestionRecord =>
                 forall key v,
                   In key [ "expected_answer"; "followup"; "reference_link" ] ->
                   q !! key = Some v -> Str.strip v = v) qs.
Proof.
  destruct (parts_loop_Forall
              (fun _ (q : QuestionRecord) =>
                 forall key v,
                   In key [ "expected_answer"; "followup"; "reference_link" ] ->
                   q !! key = Some v -> Str.strip v = v)
              fs content (question_record_trimmed fs)
              (finditer PART_HEADING MULTILINE content) 0)
    as (qs & Hqs & HF).
  exists qs. split; [exact Hqs|].
  eapply Forall_impl; [exact HF|]. now intros q (m & _ & Hq).
Qed.

Lemma question_row_columns (q : QuestionRecord) (r : row) :
  question_row q = Ok r -> map fst r = question_columns.
Proof.
  unfold question_row, getitem.
  repeat match goal with
         | |- context [q !! ?k] => destruct (q !! k); [|discriminate]
         end.
  cbn [mbind exc_bind]. now intros [= <-].
Qed.

Lemma rows_of_columns (qs : list QuestionRecord) :
  forall rows, rows_of question_row qs = Ok rows ->
               Forall (fun r => map fst r = question_columns) rows.
Proof.
  induction qs as [|q qs IH]; intros rows H; cbn [rows_of] in H.
  - injection H as <-. constructor.
  - destruct (question_row q) as [r|] eqn:Er; [|discriminate].
    destruct (rows_of question_row qs) as [rs|]; [|discriminate].
    cbn [mbind exc_bind] in H. injection H as <-.
    constructor; [now apply (question_row_columns q)|now apply IH].
Qed.

(** X19: the records of a document always turn into rows: reading their
    keys raises no [KeyError], there is one row for each record, and every
    row has the eight columns of the questions sheet in their order. *)
Theorem records_give_rows (fs : filesystem) (content : string) :
  exists qs rows,
    extract_questions fs content = Ok qs
    /\ rows_of question_row qs = Ok rows
    /\ length rows = length qs
    /\ Forall (fun r => map fst r = question_columns) rows.
Proof.
  destruct (extract_questions_keys fs content) as (qs & Hqs & HF).
  destruct (rows_of_ok question_row _ qs question_row_ok HF)
    as (rows & Hrows & Hlen).
  exists qs, rows. split; [exact Hqs|]. split; [exact Hrows|].
  split; [exact Hlen|now apply (rows_of_columns qs)].
Qed.

Lemma column_width_bounds_witness :
  adjusted_width [ Text "Part"; Text "Part 1: Basics" ] = Some 19
  /\ 6 <= 19 <= 80.
Proof.
  split; [reflexivity|].
  exact (proj1 (column_width_bounds [ Text "Part"; Text "Part 1: Basics" ])
           19 eq_refl).
Defined.
